(** * Chain Radar: time-series alignment and threshold backtest

    Shallow embedding of [src/streamlit_app.py] ([merge_data], [backtest],
    [cumulative_return], [compare_strategies]) and of [src/app.py]
    ([fetch_coingecko_market_chart]'s daily grouping, [safe_fetch_coingecko],
    the insights loop).

    Modelling conventions:
    - float64 cells are idealised as exact rationals [Q]; a pandas cell that
      may hold NaN is an [option Q] (or [option Z]), [None] being NaN;
    - timestamps are integers ([Z]) in the unit of the source (milliseconds
      for CoinGecko);
    - a DataFrame is a list of rows, a row being a record of its columns. *)

From Stdlib Require Import ZArith QArith List Lia Bool Sorted Permutation.
From Stdlib Require String.
Import ListNotations.

Open Scope Z_scope.

(** ** Rows of the merged frame

    After [merge_data] a row has the columns [timestamp], [price], [asset]
    (constant per frame, omitted here) and [fear]; [backtest] adds
    [future] and [return], [cumulative_return] adds [cumulative]. *)
Record Row := mkRow {
  timestamp : Z;
  price : Q;
  fear : option Z;
  future : option Q;
  ret : option Q;          (* the column named "return" *)
  cumulative : option Q
}.

Definition set_future (r : Row) (f : option Q) : Row :=
  mkRow (timestamp r) (price r) (fear r) f (ret r) (cumulative r).
Definition set_ret (r : Row) (x : option Q) : Row :=
  mkRow (timestamp r) (price r) (fear r) (future r) x (cumulative r).
Definition set_cumulative (r : Row) (c : option Q) : Row :=
  mkRow (timestamp r) (price r) (fear r) (future r) (ret r) c.

(** Assigning a whole column: [df[col] = values] (same length). *)
Fixpoint assign_column {A} (set : Row -> A -> Row) (df : list Row) (vs : list A)
  : list Row :=
  match df, vs with
  | r :: df', v :: vs' => set r v :: assign_column set df' vs'
  | _, _ => df
  end.

(** [DataFrame.sort_values(col)], as an insertion sort on a key. *)
Section SortBy.
Context {A : Type} (key : A -> Z).

Fixpoint insert_by (x : A) (l : list A) : list A :=
  match l with
  | [] => [x]
  | y :: l' => if key x <=? key y then x :: l else y :: insert_by x l'
  end.

Fixpoint sort_by (l : list A) : list A :=
  match l with
  | [] => []
  | x :: l' => insert_by x (sort_by l')
  end.
End SortBy.

(** ** Backtest ([backtest], lines 82-88) *)
Module Backtest.

(** [series.shift(-n)] for [n >= 0]: position [i] receives the value at
    [i + n], or NaN past the end. *)
Definition shift_neg {A} (n : nat) (xs : list A) : list (option A) :=
  map (fun i => nth_error xs (i + n)) (seq 0 (length xs)).

(** [df["future"] = df["price"].shift(-lookahead)] *)
Definition add_future (lookahead : nat) (df : list Row) : list Row :=
  assign_column set_future df (shift_neg lookahead (map price df)).

(** [df["return"] = (df["future"] - df["price"]) / df["price"]];
    NaN propagates through the arithmetic.  A zero price (inf/NaN in
    float64) is outside this rational model; CoinGecko prices are positive. *)
Definition return_of (r : Row) : option Q :=
  match future r with
  | Some f => Some ((f - price r) / price r)%Q
  | None => None
  end.

Definition add_return (df : list Row) : list Row :=
  assign_column set_ret df (map return_of df).

(** The two column assignments made on the copy. *)
Definition annotate_forward_return (lookahead : nat) (df : list Row) : list Row :=
  add_return (add_future lookahead df).

(** [dropna()] over the columns the frame has at this point
    (timestamp, price and asset are never NaN; fear, future, return may be). *)
Definition complete (r : Row) : bool :=
  match fear r, future r, ret r with
  | Some _, Some _, Some _ => true
  | _, _, _ => false
  end.

Definition dropna (df : list Row) : list Row := filter complete df.

(** A comparison on the fear column: NaN compares false. *)
Definition on_fear (q : Z -> bool) (r : Row) : bool :=
  match fear r with Some f => q f | None => false end.

(** [df[<fear predicate>].dropna()] *)
Definition partition (q : Z -> bool) (df : list Row) : list Row :=
  dropna (filter (on_fear q) df).

Definition fear_le_20 (f : Z) : bool := f <=? 20.
Definition fear_ge_80 (f : Z) : bool := 80 <=? f.

Definition backtest (df : list Row) (lookahead : nat) : list Row * list Row :=
  let df := annotate_forward_return lookahead df in
  (partition fear_le_20 df, partition fear_ge_80 df).

End Backtest.

(** ** Cumulative and total returns (lines 99-102 and 122-129) *)
Module Returns.

(** [1 + df["return"]] *)
Definition one_plus (x : option Q) : option Q := option_map (Qplus 1) x.

Definition growth (df : list Row) : list (option Q) :=
  map (fun r => one_plus (ret r)) df.

(** [Series.cumprod()] with its default [skipna=True]: a NaN position stays
    NaN and the running product continues over it. *)
Fixpoint cumprod_from (acc : Q) (xs : list (option Q)) : list (option Q) :=
  match xs with
  | [] => []
  | Some x :: xs' => Some (acc * x)%Q :: cumprod_from (acc * x)%Q xs'
  | None :: xs' => None :: cumprod_from acc xs'
  end.

Definition cumprod (xs : list (option Q)) : list (option Q) := cumprod_from 1%Q xs.

(** [cumulative_return]: on a copy, [df["cumulative"] = (1 + df["return"]).cumprod()] *)
Definition cumulative_values (df : list Row) : list (option Q) := cumprod (growth df).

Definition cumulative_return (df : list Row) : list Row :=
  assign_column set_cumulative df (cumulative_values df).

(** [Series.prod()] with [skipna=True]. *)
Fixpoint prod (xs : list (option Q)) : Q :=
  match xs with
  | [] => 1%Q
  | Some x :: xs' => (x * prod xs')%Q
  | None :: xs' => prod xs'
  end.

(** [(1 + df["return"]).prod() - 1 if len(df) > 0 else 0] *)
Definition total_return (df : list Row) : Q :=
  if (0 <? length df)%nat then (prod (growth df) - 1)%Q else 0%Q.

(** [compare_strategies]: the two totals in percent. *)
Definition compare_strategies (fear_df greed_df : list Row) : Q * Q :=
  (total_return fear_df * 100, total_return greed_df * 100)%Q.

End Returns.

(** ** Nearest-timestamp merge ([merge_data], lines 43-50) *)
Module Merge.

(** A row of [load_price]'s frame and of [load_fng]'s frame. *)
Record PriceRow := mkPriceRow { p_ts : Z; p_price : Q }.
Record FngRow := mkFngRow { f_ts : Z; f_fear : Z }.


(** [merge_asof(direction="backward")] on a sorted right frame: advance
    while the right key is [<=] the left key and keep the last such row. *)
Fixpoint asof_backward (t : Z) (rs : list FngRow) (acc : option FngRow)
  : option FngRow :=
  match rs with
  | [] => acc
  | r :: rs' => if f_ts r <=? t then asof_backward t rs' (Some r) else acc
  end.

(** [direction="forward"]: the first right row whose key is [>=] the left key. *)
Fixpoint asof_forward (t : Z) (rs : list FngRow) : option FngRow :=
  match rs with
  | [] => None
  | r :: rs' => if t <=? f_ts r then Some r else asof_forward t rs'
  end.

(** [direction="nearest"]: both candidates, the backward one kept when its
    distance is not larger ([bdiff <= fdiff] in pandas' join kernel). *)
Definition asof_nearest (t : Z) (rs : list FngRow) : option FngRow :=
  match asof_backward t rs None, asof_forward t rs with
  | Some b, Some f => if t - f_ts b <=? f_ts f - t then Some b else Some f
  | Some b, None => Some b
  | None, f => f
  end.

(** Left join: every left row is kept; an unmatched row gets NaN fear. *)
Definition merge_asof_nearest (left : list PriceRow) (right : list FngRow)
  : list Row :=
  map (fun p => mkRow (p_ts p) (p_price p)
                  (option_map f_fear (asof_nearest (p_ts p) right))
                  None None None) left.

Definition merge_data (price_df : list PriceRow) (fng : list FngRow) : list Row :=
  merge_asof_nearest (sort_by p_ts price_df) (sort_by f_ts fng).

(** A record of [r["data"]] of the alternative.me answer: its
    ["timestamp"] (seconds) and ["value"], taken as parsed by
    [pd.to_datetime(..., unit="s")] and [.astype(int)]. *)
Record FngRecord := mkFngRecord { rec_timestamp : Z; rec_value : Z }.

(** [load_fng]: [None] is the [KeyError] it raises, on a missing ["data"]
    key or on an empty list, where [pd.DataFrame([])] has no ["timestamp"]
    column.  Timestamps are kept in milliseconds, as [load_price]'s. *)
Definition load_fng (data : option (list FngRecord)) : option (list FngRow) :=
  match data with
  | None => None
  | Some [] => None
  | Some recs => Some (map (fun x => mkFngRow (rec_timestamp x * 1000) (rec_value x)) recs)
  end.

(** [fng = load_fng()] then [merge_data(price_df)] on the global [fng]:
    [None] when the load raised. *)
Definition load_and_merge (data : option (list FngRecord)) (price_df : list PriceRow)
  : option (list Row) :=
  match load_fng data with
  | None => None
  | Some fng => Some (merge_data price_df fng)
  end.

End Merge.

(** ** Daily grouping of CoinGecko data ([fetch_coingecko_market_chart],
    [src/app.py] lines 19-32) *)
Module Daily.

(** An observation [[ts, value]] of [data['prices']], [data['market_caps']]
    or [data['total_volumes']], [ts] in milliseconds. *)
Definition Obs := (Z * Q)%type.

Definition day_ms : Z := 86400000.

(** [.dt.floor('D')] *)
Definition floor_day (t : Z) : Z := t - t mod day_ms.

Definition obs_day (o : Obs) : Z := floor_day (fst o).

(** [Series.unique()]: distinct values in order of first appearance. *)
Fixpoint unique (l : list Z) : list Z :=
  match l with
  | [] => []
  | x :: l' => x :: filter (fun y => negb (y =? x)) (unique l')
  end.

Definition sumQ (xs : list Q) : Q := fold_right Qplus 0%Q xs.

(** The values falling on day [d]. *)
Definition day_values (d : Z) (os : list Obs) : list Q :=
  map snd (filter (fun o => obs_day o =? d) os).

Definition mean (xs : list Q) : Q := (sumQ xs / inject_Z (Z.of_nat (length xs)))%Q.

(** [s.groupby(s['date'].dt.floor('D'))[col].mean()]: one entry per day
    present, keys sorted. *)
Definition groupby_mean (os : list Obs) : list (Z * Q) :=
  map (fun d => (d, mean (day_values d os)))
      (sort_by (fun d => d) (unique (map obs_day os))).

Fixpoint lookup_day (d : Z) (g : list (Z * Q)) : option Q :=
  match g with
  | [] => None
  | (k, v) :: g' => if k =? d then Some v else lookup_day d g'
  end.

Record DayRow := mkDayRow { d_date : Z; d_price : Q; d_market_cap : Q; d_volume : Q }.

(** [df.merge(g, left_on='date', right_index=True)] with the default inner
    join: a left row whose date is a key of the grouped table [g] gets that
    day's mean, the others are dropped, in left order ([g]'s keys are
    unique).  A frame is its rows and whether its index is named ['date'].
    pandas takes the result's index from the left frame when the left frame
    has rows, and from [g]'s index, named ['date'] after the grouping
    series, when it has none.  [merge] and [sort_values] on ['date'] raise
    [ValueError] ("'date' is both an index level and a column label") on a
    frame whose index is named ['date']: that is [None] here. *)
Definition merge_row {A B} (date : A -> Z) (mk : A -> Q -> B) (g : list (Z * Q))
  (a : A) : list B :=
  match lookup_day (date a) g with
  | Some v => [mk a v]
  | None => []
  end.

Definition merge_on_date {A B} (date : A -> Z) (mk : A -> Q -> B)
  (left : list A * bool) (g : list (Z * Q)) : option (list B * bool) :=
  let '(rows, named) := left in
  if named then None
  else Some (flat_map (merge_row date mk g) rows,
             match rows with [] => true | _ :: _ => false end).

(** [fetch_coingecko_market_chart] on a 200 answer:
    [df = DataFrame({'date': floor(prices.date).unique()})], the merges with
    the daily means of prices, market caps and volumes, then
    [sort_values('date')]; [None] is the [ValueError] raised on the way. *)
Definition market_chart_frame (prices mcaps vols : list Obs) : option (list DayRow) :=
  match merge_on_date (fun d => d) (fun d p => (d, p))
          (unique (map obs_day prices), false) (groupby_mean prices) with
  | None => None
  | Some df1 =>
      match merge_on_date fst (fun '(d, p) m => (d, p, m)) df1 (groupby_mean mcaps) with
      | None => None
      | Some df2 =>
          match merge_on_date (fun '(d, _, _) => d) (fun '(d, p, m) v => mkDayRow d p m v)
                  df2 (groupby_mean vols) with
          | None => None
          | Some (rows, named) => if named then None else Some (sort_by d_date rows)
          end
      end
  end.

End Daily.

(** ** Insights and fallback data ([src/app.py] lines 36-51 and 140-144) *)
Module Insights.
Import Daily.

(** A float64 result: a finite value, or inf/NaN from a division by zero
    (numpy scalars do not raise on it). *)
Inductive Float := Fin (q : Q) | NonFinite.

Definition fdiv (a b : Q) : Float := if Qeq_bool b 0 then NonFinite else Fin (a / b).

Definition fmul (x : Float) (c : Q) : Float :=
  match x with Fin q => Fin (q * c) | NonFinite => NonFinite end.

(** Outcome of the loop body: a value, or the [IndexError] of [iloc[0]]. *)
Inductive Outcome := Value (x : Float) | IndexError.

(** [first = df.iloc[0]['price']; last = df.iloc[-1]['price'];
     change = (last-first)/first*100] *)
Definition percent_change (df : list DayRow) : Outcome :=
  match df with
  | [] => IndexError
  | r :: _ =>
      let first := d_price r in
      let last := d_price (last df r) in
      Value (fmul (fdiv (last - first) first) 100)
  end.

(** The synthetic series of [safe_fetch_coingecko]'s [except] branch.
    [today] is [pd.to_datetime('today').normalize()] in milliseconds and
    [coin_hash] is [hash(coin_id)] (randomised per process). *)
Definition fallback_price (base : Z) (i : nat) : Q :=
  (inject_Z base * (1 + (1 # 100) * inject_Z (Z.of_nat i mod 7 - 3)))%Q.

Definition fallback (today coin_hash : Z) (days : nat) : list DayRow :=
  let dates := map (fun i => today - Z.of_nat i * day_ms) (rev (seq 0 days)) in
  let base := 100 + Z.abs coin_hash mod 100 in
  map (fun '(d, i) =>
         mkDayRow d (fallback_price base i) (fallback_price base i * 10000000)%Q
                  (1000000 + inject_Z (Z.of_nat i) * 1000)%Q)
      (combine dates (seq 0 (length dates))).

(** [safe_fetch_coingecko]: [fetched] is [None] when the fetch raised or
    returned [None]. *)
Definition safe_fetch (fetched : option (list DayRow)) (today coin_hash : Z)
  (days : nat) : list DayRow :=
  match fetched with
  | Some ((_ :: _) as df) => df
  | _ => fallback today coin_hash days
  end.

End Insights.

(** ** Frames as shared mutable objects

    A store of DataFrames addressed by location; [df.copy()] and every
    operation returning a new frame allocate, column assignment writes in
    place. *)
Module Heap.

Definition store := list (list Row).
Definition M (A : Type) := store -> option (A * store).

Definition mret {A} (x : A) : M A := fun s => Some (x, s).
Definition mbind {A B} (m : M A) (k : A -> M B) : M B :=
  fun s => match m s with Some (x, s') => k x s' | None => None end.

Notation "x <- m ;; k" := (mbind m (fun x => k)) (at level 61, m at next level, right associativity).
Notation "m ;;; k" := (mbind m (fun _ => k)) (at level 61, right associativity).

Fixpoint replace_nth {A} (l : list A) (n : nat) (x : A) : list A :=
  match l, n with
  | [], _ => []
  | _ :: l', O => x :: l'
  | y :: l', S n' => y :: replace_nth l' n' x
  end.

Definition read (l : nat) : M (list Row) :=
  fun s => match nth_error s l with Some f => Some (f, s) | None => None end.
Definition alloc (f : list Row) : M nat := fun s => Some (length s, s ++ [f]).
Definition write (l : nat) (f : list Row) : M unit :=
  fun s => if (l <? length s)%nat then Some (tt, replace_nth s l f) else None.

(** [df.copy()] *)
Definition copy (l : nat) : M nat := f <- read l ;; alloc f.

(** [backtest(df, lookahead)] on the frame at location [l]. *)
Definition backtest_st (l : nat) (lookahead : nat) : M (nat * nat) :=
  c <- copy l ;;
  d <- read c ;; write c (Backtest.add_future lookahead d) ;;;
  d <- read c ;; write c (Backtest.add_return d) ;;;
  d <- read c ;;
  t1 <- alloc (filter (Backtest.on_fear Backtest.fear_le_20) d) ;;
  d1 <- read t1 ;; fb <- alloc (Backtest.dropna d1) ;;
  t2 <- alloc (filter (Backtest.on_fear Backtest.fear_ge_80) d) ;;
  d2 <- read t2 ;; gs <- alloc (Backtest.dropna d2) ;;
  mret (fb, gs).

(** [cumulative_return(df)] on the frame at location [l]. *)
Definition cumulative_return_st (l : nat) : M nat :=
  c <- copy l ;;
  d <- read c ;; write c (Returns.cumulative_return d) ;;;
  mret c.

End Heap.

(** ** Further pieces of [src/app.py] *)
Module App.
Import Daily.

(** [fetch_eth_onchain_summary(api_key, days)] (lines 54-62): a synthetic
    daily frame; [today] is [pd.to_datetime('today').normalize()] in ms. *)
Record OnchainRow := mkOnchainRow { o_date : Z; tx_count : Z; avg_gas : Z }.

Definition fetch_eth_onchain_summary (today : Z) (days : nat) : list OnchainRow :=
  let dates := map (fun i => today - Z.of_nat i * day_ms) (rev (seq 0 days)) in
  map (fun '(d, i) =>
         mkOnchainRow d (2000000 + (Z.of_nat i * 1000) mod 200000) (20 + Z.of_nat i mod 5))
      (combine dates (seq 0 (List.length dates))).

(** The [latest] loop (lines 124-126): [df.sort_values('date').iloc[-1]];
    [None] is the [IndexError] of an empty frame. *)
Definition latest_row (df : list DayRow) : option DayRow :=
  match sort_by d_date df with
  | [] => None
  | r :: rest => Some (last (r :: rest) r)
  end.

End App.

(** [fetch_news_keywords(query, limit)] (lines 64-76). *)
Module News.
Import String.
Local Open Scope string_scope.

(** One entry of [coins]: [Some (name, symbol)] when [c['item']['name']] and
    [c['item']['symbol']] exist, [None] when a lookup raises [KeyError]. *)
Definition CoinEntry := option (string * string).

(** The request: it raised (network error, timeout, bad JSON), or it
    answered with a status and a JSON body whose [coins] key may be absent. *)
Inductive Response :=
| Raised
| Answer (status : Z) (coins : option (list CoinEntry)).

Definition fallback_news : list string :=
  ["NFT marketplace launches"; "Layer2 adoption rising";
   "Stablecoin regulatory news"; "BTC ETF flows"].

(** [f"{c['item']['name']} ({c['item']['symbol']})"] *)
Definition format_coin (ns : string * string) : string :=
  fst ns ++ " (" ++ snd ns ++ ")".

(** The list comprehension: every item is formatted before slicing, so one
    bad entry raises. *)
Fixpoint format_all (cs : list CoinEntry) : option (list string) :=
  match cs with
  | [] => Some []
  | None :: _ => None
  | Some ns :: cs' =>
      match format_all cs' with
      | Some ls => Some (format_coin ns :: ls)
      | None => None
      end
  end.

Definition fetch_news_keywords (resp : Response) (limit : nat) : list string :=
  match resp with
  | Answer status coins =>
      if (status =? 200)%Z then
        match format_all (match coins with Some cs => cs | None => [] end) with
        | Some lines => firstn limit lines
        | None => fallback_news          (* KeyError caught by the bare except *)
        end
      else fallback_news
  | Raised => fallback_news
  end.

End News.

(** ** Running products over a list of defined returns *)

Fixpoint scan_prod (acc : Q) (xs : list Q) : list Q :=
  match xs with
  | [] => []
  | x :: xs' => (acc * x)%Q :: scan_prod (acc * x)%Q xs'
  end.

(** * Properties *)

(** ** Column assignment and shifting *)

Lemma length_assign_column {A} (set : Row -> A -> Row) (df : list Row) (vs : list A) :
  length (assign_column set df vs) = length df.
Proof.
  revert vs; induction df as [|r df IH]; intros [|v vs]; simpl; auto.
Qed.

Lemma nth_error_assign_column {A} (set : Row -> A -> Row) df vs i :
  nth_error (assign_column set df vs) i =
  match nth_error df i with
  | Some r => Some (match nth_error vs i with Some v => set r v | None => r end)
  | None => None
  end.
Proof.
  revert vs i; induction df as [|r df IH]; intros [|v vs] [|i]; simpl; auto.
  destruct (nth_error df i); reflexivity.
Qed.

Lemma nth_error_add_future h df i :
  nth_error (Backtest.add_future h df) i =
  option_map (fun r => set_future r (nth_error (map price df) (i + h)))
             (nth_error df i).
Proof.
  unfold Backtest.add_future, Backtest.shift_neg.
  rewrite nth_error_assign_column.
  destruct (nth_error df i) eqn:E; simpl; auto.
  rewrite nth_error_map, nth_error_seq, length_map.
  assert (Hi : (i < length df)%nat) by (apply nth_error_Some; congruence).
  apply Nat.ltb_lt in Hi; rewrite Hi; reflexivity.
Qed.

Lemma nth_error_add_return df i :
  nth_error (Backtest.add_return df) i =
  option_map (fun r => set_ret r (Backtest.return_of r)) (nth_error df i).
Proof.
  unfold Backtest.add_return.
  rewrite nth_error_assign_column, nth_error_map.
  destruct (nth_error df i); reflexivity.
Qed.

Lemma length_annotate h df :
  length (Backtest.annotate_forward_return h df) = length df.
Proof.
  unfold Backtest.annotate_forward_return, Backtest.add_return, Backtest.add_future.
  rewrite !length_assign_column; reflexivity.
Qed.

(** The return column after annotation, position by position. *)
Lemma nth_error_annotate_ret h df i :
  (i < length df)%nat ->
  nth_error (map ret (Backtest.annotate_forward_return h df)) i =
  Some (if (i + h <? length df)%nat
        then Some ((nth (i + h) (map price df) 0 - nth i (map price df) 0)
                   / nth i (map price df) 0)%Q
        else None).
Proof.
  intros Hi.
  unfold Backtest.annotate_forward_return.
  rewrite nth_error_map, nth_error_add_return, nth_error_add_future.
  destruct (nth_error df i) as [r|] eqn:E.
  2:{ apply nth_error_None in E; lia. }
  simpl. unfold Backtest.return_of; simpl.
  assert (Hpi : nth i (map price df) 0%Q = price r).
  { apply nth_error_nth. rewrite nth_error_map, E; reflexivity. }
  rewrite Hpi.
  destruct (i + h <? length df)%nat eqn:L.
  - apply Nat.ltb_lt in L.
    rewrite nth_error_nth' with (d := 0%Q) by (rewrite length_map; lia).
    reflexivity.
  - apply Nat.ltb_ge in L.
    assert (N : nth_error (map price df) (i + h)%nat = None)
      by (apply nth_error_None; rewrite length_map; lia).
    rewrite N; reflexivity.
Qed.

Lemma defined_returns_shape h df :
  map (fun r => if ret r then true else false) (Backtest.annotate_forward_return h df) =
  map (fun i => (i + h <? length df)%nat) (seq 0 (length df)).
Proof.
  apply nth_error_ext; intros i.
  rewrite <- (map_map ret (fun o => if o then true else false)).
  rewrite !nth_error_map, nth_error_seq.
  destruct (i <? length df)%nat eqn:Hi.
  - apply Nat.ltb_lt in Hi.
    pose proof (nth_error_annotate_ret h df i Hi) as E.
    rewrite nth_error_map in E. rewrite E; simpl.
    destruct (i + h <? length df)%nat; reflexivity.
  - apply Nat.ltb_ge in Hi.
    assert (N : nth_error (map ret (Backtest.annotate_forward_return h df)) i = None)
      by (apply nth_error_None; rewrite length_map, length_annotate; lia).
    rewrite nth_error_map in N; rewrite N; reflexivity.
Qed.

Lemma partition_complete q df r :
  In r (Backtest.partition q df) -> Backtest.complete r = true.
Proof.
  unfold Backtest.partition, Backtest.dropna; intros H.
  apply filter_In in H; tauto.
Qed.

Lemma complete_ret r : Backtest.complete r = true -> ret r <> None.
Proof.
  unfold Backtest.complete; destruct (fear r), (future r), (ret r); simpl; congruence.
Qed.

(** C1: record [i] gets the forward return
    [(price[i+h] - price[i]) / price[i]] exactly when [i + h < length];
    the others stay NaN and never reach a cohort; with 10 records and
    [h = 7] only indices 0, 1, 2 are defined.  Prices are CoinGecko quotes,
    taken nonzero. *)
Theorem annotate_forward_return_defined_iff (h : nat) (df : list Row)
  (Hh : (0 < h)%nat) (Hp : Forall (fun r => ~ (price r == 0)%Q) df) :
  length (Backtest.annotate_forward_return h df) = length df /\
  (forall i, (i < length df)%nat ->
     nth_error (map ret (Backtest.annotate_forward_return h df)) i =
     Some (if (i + h <? length df)%nat
           then Some ((nth (i + h) (map price df) 0 - nth i (map price df) 0)
                      / nth i (map price df) 0)%Q
           else None)) /\
  (forall q r, In r (Backtest.partition q (Backtest.annotate_forward_return h df)) ->
     ret r <> None) /\
  (length df = 10%nat -> h = 7%nat ->
     map (fun r => if ret r then true else false) (Backtest.annotate_forward_return h df)
     = [true; true; true; false; false; false; false; false; false; false]).
Proof.
  split; [apply length_annotate|].
  split; [intros i Hi; apply nth_error_annotate_ret; exact Hi|].
  split.
  - intros q r Hr; apply complete_ret; eapply partition_complete; eauto.
  - intros Hn Hh7; subst h; rewrite defined_returns_shape, Hn; reflexivity.
Qed.

Lemma annotate_forward_return_defined_iff_witness :
  let df := [mkRow 0 100 (Some 10) None None None; mkRow 1 110 (Some 50) None None None;
             mkRow 2 121 (Some 15) None None None; mkRow 3 90 (Some 85) None None None] in
  (0 < 2)%nat /\ Forall (fun r => ~ (price r == 0)%Q) df /\
  nth_error (map ret (Backtest.annotate_forward_return 2 df)) 0 =
    Some (Some ((nth 2 (map price df) 0 - nth 0 (map price df) 0) / nth 0 (map price df) 0)%Q) /\
  nth_error (map ret (Backtest.annotate_forward_return 2 df)) 1 =
    Some (Some ((nth 3 (map price df) 0 - nth 1 (map price df) 0) / nth 1 (map price df) 0)%Q) /\
  nth_error (map ret (Backtest.annotate_forward_return 2 df)) 2 = Some None.
Proof.
  intros df.
  assert (Hp : Forall (fun r => ~ (price r == 0)%Q) df).
  { apply Forall_forall; intros r Hr.
    destruct Hr as [<-|[<-|[<-|[<-|[]]]]]; intros H; vm_compute in H; discriminate H. }
  destruct (annotate_forward_return_defined_iff 2 df ltac:(lia) Hp) as (_ & Hn & _).
  split; [lia|]. split; [exact Hp|].
  split; [|split]; [rewrite (Hn 0%nat) | rewrite (Hn 1%nat) | rewrite (Hn 2%nat)];
    solve [reflexivity | simpl; lia].
Defined.

(** ** Rows of an annotated frame *)

Lemma In_annotate h df r :
  In r (Backtest.annotate_forward_return h df) ->
  exists i r0, nth_error df i = Some r0 /\
    r = set_ret (set_future r0 (nth_error (map price df) (i + h)))
                (Backtest.return_of (set_future r0 (nth_error (map price df) (i + h)))).
Proof.
  intros H. apply In_nth_error in H as [i Hi].
  unfold Backtest.annotate_forward_return in Hi.
  rewrite nth_error_add_return, nth_error_add_future in Hi.
  destruct (nth_error df i) as [r0|] eqn:E; simpl in Hi; [|discriminate].
  exists i, r0; split; [exact E|]; congruence.
Qed.

Lemma annotate_ret_future h df r :
  In r (Backtest.annotate_forward_return h df) ->
  (ret r = None <-> future r = None).
Proof.
  intros H; apply In_annotate in H as (i & r0 & _ & ->).
  unfold Backtest.return_of; simpl.
  destruct (nth_error (map price df) (i + h)%nat); simpl; split; congruence.
Qed.

Lemma annotate_past_horizon h df r :
  (length df <= h)%nat -> In r (Backtest.annotate_forward_return h df) -> ret r = None.
Proof.
  intros Hl H; apply In_annotate in H as (i & r0 & E & ->).
  assert (N : nth_error (map price df) (i + h)%nat = None)
    by (apply nth_error_None; rewrite length_map; lia).
  rewrite N; reflexivity.
Qed.

Lemma filter_all_false {A} (f : A -> bool) l :
  (forall x, In x l -> f x = false) -> filter f l = [].
Proof.
  induction l as [|x l IH]; simpl; intros H; auto.
  rewrite H by auto. apply IH; auto.
Qed.

Lemma partition_past_horizon q h df :
  (length df <= h)%nat -> Backtest.partition q (Backtest.annotate_forward_return h df) = [].
Proof.
  intros Hl. unfold Backtest.partition, Backtest.dropna.
  apply filter_all_false; intros x Hx.
  apply filter_In in Hx as [Hx _].
  unfold Backtest.complete. rewrite (annotate_past_horizon h df x Hl Hx).
  destruct (fear x), (future x); reflexivity.
Qed.

Lemma defined_returns l :
  (forall x, In x l -> ret x <> None) -> exists rs, map ret l = map Some rs.
Proof.
  induction l as [|r l IH]; intros H.
  - exists []; reflexivity.
  - destruct IH as [rs Hrs]; [intros x Hx; apply H; right; exact Hx|].
    destruct (ret r) as [v|] eqn:Er; [|exfalso; apply (H r); [left; reflexivity | exact Er]].
    exists (v :: rs); simpl; rewrite Er, Hrs; reflexivity.
Qed.

(** Every row of a cohort carries a defined return. *)
Lemma cohort_returns q df :
  exists rs, map ret (Backtest.partition q df) = map Some rs.
Proof.
  apply defined_returns; intros x Hx.
  apply complete_ret; eapply partition_complete; eauto.
Qed.

Lemma growth_of_returns c rs :
  map ret c = map Some rs -> Returns.growth c = map (fun x => Some (1 + x)%Q) rs.
Proof.
  unfold Returns.growth; revert rs; induction c as [|r c IH]; intros [|x rs] H;
    simpl in *; try discriminate; auto.
  injection H as H1 H2. rewrite H1, (IH rs H2); reflexivity.
Qed.

Lemma prod_of_returns rs :
  Returns.prod (map (fun x => Some (1 + x)%Q) rs) = fold_right Qmult 1%Q (map (Qplus 1) rs).
Proof. induction rs as [|x rs IH]; simpl; [reflexivity | rewrite IH; reflexivity]. Qed.

(** C2: [total_return] is [prod (1 + r) - 1] over a nonempty cohort and
    exactly [0] over an empty one; when the horizon is at least the series
    length both cohorts are empty and both totals are 0. *)
Theorem total_return_product_or_zero :
  (forall h df q,
     let c := Backtest.partition q (Backtest.annotate_forward_return h df) in
     c <> [] ->
     exists rs, map ret c = map Some rs /\
       Returns.total_return c = (fold_right Qmult 1 (map (Qplus 1) rs) - 1)%Q) /\
  Returns.total_return [] = 0%Q /\
  (forall h df, (length df <= h)%nat ->
     Backtest.backtest df h = ([], []) /\
     Returns.total_return (fst (Backtest.backtest df h)) = 0%Q /\
     Returns.total_return (snd (Backtest.backtest df h)) = 0%Q).
Proof.
  split; [|split].
  - intros h df q c Hc.
    destruct (cohort_returns q (Backtest.annotate_forward_return h df)) as [rs Hrs].
    fold c in Hrs; clearbody c.
    exists rs; split; [exact Hrs|].
    unfold Returns.total_return.
    assert (L : (0 <? length c)%nat = true) by (destruct c; [congruence | reflexivity]).
    rewrite L, (growth_of_returns c rs Hrs), prod_of_returns; reflexivity.
  - reflexivity.
  - intros h df Hl.
    unfold Backtest.backtest; rewrite !partition_past_horizon by exact Hl.
    repeat split.
Qed.


Lemma cumprod_from_defined acc xs :
  Returns.cumprod_from acc (map Some xs) = map Some (scan_prod acc xs).
Proof.
  revert acc; induction xs as [|x xs IH]; intros acc; simpl; [reflexivity|].
  rewrite IH; reflexivity.
Qed.

Lemma length_scan_prod acc xs : length (scan_prod acc xs) = length xs.
Proof. revert acc; induction xs; intros; simpl; auto. Qed.

Lemma nth_scan_prod_succ acc xs i :
  (S i < length xs)%nat ->
  nth (S i) (scan_prod acc xs) 0%Q = (nth i (scan_prod acc xs) 0 * nth (S i) xs 0)%Q.
Proof.
  revert acc i; induction xs as [|x xs IH]; intros acc i Hi; simpl in Hi; [lia|].
  destruct xs as [|y xs]; simpl in Hi; [lia|].
  destruct i as [|i]; [reflexivity|].
  change (nth (S i) (scan_prod (acc * x) (y :: xs)) 0%Q =
          (nth i (scan_prod (acc * x) (y :: xs)) 0 * nth (S i) (y :: xs) 0)%Q).
  apply IH; simpl; lia.
Qed.

Lemma last_scan_prod acc xs :
  xs <> [] -> (last (scan_prod acc xs) 0 == acc * fold_right Qmult 1 xs)%Q.
Proof.
  revert acc; induction xs as [|x xs IH]; intros acc H; [congruence|].
  destruct xs as [|y xs].
  - simpl. ring.
  - change (last ((acc * x)%Q :: scan_prod (acc * x) (y :: xs)) 0%Q)
      with (last (scan_prod (acc * x) (y :: xs)) 0%Q).
    eapply Qeq_trans; [apply IH; discriminate|]. simpl. ring.
Qed.

Lemma length_cumprod_from acc xs : length (Returns.cumprod_from acc xs) = length xs.
Proof.
  revert acc; induction xs as [|[x|] xs IH]; intros acc; simpl; auto.
Qed.

Lemma map_cumulative_assign df vs :
  length vs = length df -> map cumulative (assign_column set_cumulative df vs) = vs.
Proof.
  revert vs; induction df as [|r df IH]; intros [|v vs] H; simpl in *;
    try discriminate; auto.
  rewrite IH by lia; reflexivity.
Qed.

Lemma map_timestamp_assign {A} (set : Row -> A -> Row) df vs :
  (forall r v, timestamp (set r v) = timestamp r) ->
  map timestamp (assign_column set df vs) = map timestamp df.
Proof.
  intros Hs; revert vs; induction df as [|r df IH]; intros [|v vs]; simpl; auto.
  rewrite Hs, IH; reflexivity.
Qed.

(** C3: over a cohort, [cumulative_return] assigns one value per row, in
    the rows' order; the first is [1 + r0], each next one multiplies the
    previous by [1 + r]; the last is [1 + total_return]; an empty cohort
    gives an empty sequence. *)
Theorem cumulative_returns_running_product (h : nat) (df : list Row) (q : Z -> bool) :
  let c := Backtest.partition q (Backtest.annotate_forward_return h df) in
  exists rs cs,
    map ret c = map Some rs /\
    map cumulative (Returns.cumulative_return c) = map Some cs /\
    map timestamp (Returns.cumulative_return c) = map timestamp c /\
    length cs = length c /\
    (c <> [] -> (nth 0 cs 0 == 1 + nth 0 rs 0)%Q) /\
    (forall i, (S i < length c)%nat ->
       nth (S i) cs 0%Q = (nth i cs 0 * (1 + nth (S i) rs 0))%Q) /\
    (c <> [] -> (last cs 0 == 1 + Returns.total_return c)%Q) /\
    (c = [] -> Returns.cumulative_values c = []).
Proof.
  intros c.
  destruct (cohort_returns q (Backtest.annotate_forward_return h df)) as [rs Hrs].
  fold c in Hrs; clearbody c.
  assert (Hlen : length rs = length c)
    by (rewrite <- (length_map Some rs), <- Hrs, length_map; reflexivity).
  assert (Hcv : Returns.cumulative_values c = map Some (scan_prod 1 (map (Qplus 1) rs))).
  { unfold Returns.cumulative_values, Returns.cumprod.
    rewrite (growth_of_returns c rs Hrs), <- cumprod_from_defined, map_map; reflexivity. }
  exists rs, (scan_prod 1 (map (Qplus 1) rs)).
  split; [exact Hrs|].
  split.
  { unfold Returns.cumulative_return; rewrite map_cumulative_assign; [exact Hcv|].
    rewrite Hcv, length_map, length_scan_prod, length_map; exact Hlen. }
  split; [apply map_timestamp_assign; reflexivity|].
  split; [rewrite length_scan_prod, length_map; exact Hlen|].
  split.
  { intros Hc; destruct rs as [|r rs]; [destruct c; simpl in Hlen; congruence|].
    simpl; ring. }
  split.
  { intros i Hi. rewrite nth_scan_prod_succ by (rewrite length_map; lia).
    rewrite (nth_indep (map (Qplus 1) rs) 0%Q (1 + 0)%Q) by (rewrite length_map; lia).
    rewrite map_nth; reflexivity. }
  split.
  { intros Hc. rewrite last_scan_prod.
    2:{ destruct rs; [destruct c; simpl in Hlen; congruence | discriminate]. }
    unfold Returns.total_return.
    assert (L : (0 <? length c)%nat = true) by (destruct c; [congruence | reflexivity]).
    rewrite L, (growth_of_returns c rs Hrs), prod_of_returns. ring. }
  intros ->; reflexivity.
Qed.

Lemma dropna_after_fear_filter q l :
  (forall r, In r l -> (ret r = None <-> future r = None)) ->
  Backtest.dropna (filter (Backtest.on_fear q) l) =
  filter (fun r => Backtest.on_fear q r && (if ret r then true else false)) l.
Proof.
  unfold Backtest.dropna.
  induction l as [|r l IH]; intros H; [reflexivity|].
  specialize (IH (fun x Hx => H x (or_intror Hx))).
  specialize (H r (or_introl eq_refl)).
  cbn [filter]. destruct (Backtest.on_fear q r) eqn:Eo; cbn [andb filter].
  - unfold Backtest.on_fear in Eo.
    unfold Backtest.complete at 1.
    destruct (fear r) as [f|]; [|discriminate].
    rewrite IH.
    destruct (future r), (ret r); try reflexivity; exfalso; intuition congruence.
  - exact IH.
Qed.

(** C6: a cohort is exactly the annotated rows whose fear value satisfies
    the predicate and whose return is defined, in input order; with the
    fear cohort of a 90-row series at horizon 30 where 9 rows qualify,
    the cohort and its cumulative sequence have 9 entries. *)
Theorem partition_filters_defined (q : Z -> bool) (h : nat) (df : list Row) :
  Backtest.partition q (Backtest.annotate_forward_return h df) =
    filter (fun r => Backtest.on_fear q r && (if ret r then true else false))
           (Backtest.annotate_forward_return h df) /\
  length (Returns.cumulative_values (Backtest.partition q (Backtest.annotate_forward_return h df)))
    = length (Backtest.partition q (Backtest.annotate_forward_return h df)) /\
  (length df = 90%nat ->
   length (filter (fun r => Backtest.on_fear Backtest.fear_le_20 r && (if ret r then true else false))
                  (Backtest.annotate_forward_return 30 df)) = 9%nat ->
   length (fst (Backtest.backtest df 30)) = 9%nat /\
   length (Returns.cumulative_values (fst (Backtest.backtest df 30))) = 9%nat).
Proof.
  assert (Hp : forall q' h' df',
    Backtest.partition q' (Backtest.annotate_forward_return h' df') =
    filter (fun r => Backtest.on_fear q' r && (if ret r then true else false))
           (Backtest.annotate_forward_return h' df')).
  { intros q' h' df'; apply dropna_after_fear_filter; intros r Hr.
    eapply annotate_ret_future; eauto. }
  split; [apply Hp|].
  split.
  { unfold Returns.cumulative_values, Returns.cumprod, Returns.growth.
    rewrite length_cumprod_from, length_map; reflexivity. }
  intros _ H9. unfold Backtest.backtest; cbn [fst]. rewrite Hp, H9. split; [reflexivity|].
  unfold Returns.cumulative_values, Returns.cumprod, Returns.growth.
  rewrite length_cumprod_from, length_map; exact H9.
Qed.

(** ** Sorting by a key *)

Section SortFacts.
Context {A : Type} (key : A -> Z).

Lemma In_insert_by x l z : In z (insert_by key x l) <-> x = z \/ In z l.
Proof.
  induction l as [|y l IH]; simpl; [tauto|].
  destruct (key x <=? key y); simpl; [tauto|].
  rewrite IH; tauto.
Qed.

Lemma Permutation_insert_by x l : Permutation (insert_by key x l) (x :: l).
Proof.
  induction l as [|y l IH]; simpl; [reflexivity|].
  destruct (key x <=? key y); [reflexivity|].
  eapply perm_trans; [apply perm_skip, IH | apply perm_swap].
Qed.

Lemma Permutation_sort_by l : Permutation (sort_by key l) l.
Proof.
  induction l as [|x l IH]; simpl; [reflexivity|].
  eapply perm_trans; [apply Permutation_insert_by | apply perm_skip, IH].
Qed.

Lemma sorted_insert_by x l :
  StronglySorted (fun a b => key a <= key b) l ->
  StronglySorted (fun a b => key a <= key b) (insert_by key x l).
Proof.
  induction l as [|y l IH]; intros Hs; simpl.
  - repeat constructor.
  - apply StronglySorted_inv in Hs as [Hl Hy].
    rewrite Forall_forall in Hy.
    destruct (key x <=? key y) eqn:E.
    + apply Z.leb_le in E.
      constructor; [constructor; [exact Hl | apply Forall_forall; exact Hy]|].
      constructor; [exact E|]. apply Forall_forall; intros z Hz.
      specialize (Hy z Hz); lia.
    + apply Z.leb_gt in E.
      constructor; [apply IH, Hl|].
      apply Forall_forall; intros z Hz. apply In_insert_by in Hz as [<-|Hz]; [lia|].
      apply Hy, Hz.
Qed.

Lemma sorted_sort_by l : StronglySorted (fun a b => key a <= key b) (sort_by key l).
Proof.
  induction l as [|x l IH]; simpl; [constructor | apply sorted_insert_by, IH].
Qed.

End SortFacts.

(** ** The as-of join on a sorted right frame *)

Section Asof.
Import Merge.

Definition ts_sorted (rs : list FngRow) : Prop :=
  StronglySorted (fun a b => f_ts a <= f_ts b) rs.

Lemma asof_backward_spec t rs acc :
  ts_sorted rs ->
  match asof_backward t rs acc with
  | Some b =>
      (acc = Some b /\ forall o, In o rs -> t < f_ts o) \/
      (In b rs /\ f_ts b <= t /\ forall o, In o rs -> f_ts o <= t -> f_ts o <= f_ts b)
  | None => acc = None /\ forall o, In o rs -> t < f_ts o
  end.
Proof.
  revert acc; induction rs as [|r rs IH]; intros acc Hs; simpl.
  - destruct acc; [left|]; split; auto; intros o [].
  - apply StronglySorted_inv in Hs as [Hs Hr]. rewrite Forall_forall in Hr.
    destruct (f_ts r <=? t) eqn:E.
    + apply Z.leb_le in E.
      specialize (IH (Some r) Hs).
      destruct (asof_backward t rs (Some r)) as [b|].
      * right. destruct IH as [[Hb Hall] | (Hin & Hbt & Hmax)].
        -- injection Hb as <-. split; [left; reflexivity|]. split; [exact E|].
           intros o [<-|Ho] Hot; [lia|]. specialize (Hall o Ho); lia.
        -- split; [right; exact Hin|]. split; [exact Hbt|].
           intros o [<-|Ho] Hot; [apply Hr, Hin | apply Hmax; auto].
      * destruct IH; discriminate.
    + apply Z.leb_gt in E.
      assert (Hall : forall o, r = o \/ In o rs -> t < f_ts o).
      { intros o [<-|Ho]; [exact E|]. specialize (Hr o Ho); lia. }
      destruct acc as [a|]; [left|]; split; auto.
Qed.

Lemma asof_forward_spec t rs :
  ts_sorted rs ->
  match asof_forward t rs with
  | Some f => In f rs /\ t <= f_ts f /\ forall o, In o rs -> t <= f_ts o -> f_ts f <= f_ts o
  | None => forall o, In o rs -> f_ts o < t
  end.
Proof.
  induction rs as [|r rs IH]; intros Hs; simpl; [intros o []|].
  apply StronglySorted_inv in Hs as [Hs Hr]. rewrite Forall_forall in Hr.
  destruct (t <=? f_ts r) eqn:E.
  - apply Z.leb_le in E. split; [left; reflexivity|]. split; [exact E|].
    intros o [<-|Ho] _; [lia | apply Hr, Ho].
  - apply Z.leb_gt in E. specialize (IH Hs).
    destruct (asof_forward t rs) as [f|].
    + destruct IH as (Hin & Hft & Hmin). split; [right; exact Hin|]. split; [exact Hft|].
      intros o [<-|Ho] Hto; [lia | apply Hmin; auto].
    + intros o [<-|Ho]; [exact E | apply IH, Ho].
Qed.

Lemma asof_nearest_spec t rs :
  ts_sorted rs -> rs <> [] ->
  exists n, asof_nearest t rs = Some n /\ In n rs /\
    (forall o, In o rs -> Z.abs (t - f_ts n) <= Z.abs (t - f_ts o)) /\
    (forall o, In o rs -> Z.abs (t - f_ts o) = Z.abs (t - f_ts n) -> f_ts n <= f_ts o).
Proof.
  intros Hs Hne. unfold asof_nearest.
  pose proof (asof_backward_spec t rs None Hs) as Hb.
  pose proof (asof_forward_spec t rs Hs) as Hf.
  destruct (asof_backward t rs None) as [b|];
    [destruct Hb as [[Hb _] | (Hbin & Hbt & Hbmax)]; [discriminate|] | destruct Hb as [_ Hb]];
    destruct (asof_forward t rs) as [f|];
    try destruct Hf as (Hfin & Hft & Hfmin).
  - destruct (t - f_ts b <=? f_ts f - t) eqn:E; [apply Z.leb_le in E | apply Z.leb_gt in E].
    + exists b; split; [reflexivity|]; split; [exact Hbin|]; split.
      * intros o Ho. destruct (Z.le_gt_cases (f_ts o) t) as [Hot|Hot].
        -- specialize (Hbmax o Ho Hot); lia.
        -- specialize (Hfmin o Ho ltac:(lia)); lia.
      * intros o Ho Heq. destruct (Z.le_gt_cases (f_ts o) t) as [Hot|Hot].
        -- specialize (Hbmax o Ho Hot); lia.
        -- lia.
    + exists f; split; [reflexivity|]; split; [exact Hfin|]; split.
      * intros o Ho. destruct (Z.le_gt_cases (f_ts o) t) as [Hot|Hot].
        -- specialize (Hbmax o Ho Hot); lia.
        -- specialize (Hfmin o Ho ltac:(lia)); lia.
      * intros o Ho Heq. destruct (Z.le_gt_cases (f_ts o) t) as [Hot|Hot].
        -- specialize (Hbmax o Ho Hot); lia.
        -- specialize (Hfmin o Ho ltac:(lia)); lia.
  - exists b; split; [reflexivity|]; split; [exact Hbin|]; split.
    + intros o Ho. specialize (Hf o Ho). specialize (Hbmax o Ho ltac:(lia)); lia.
    + intros o Ho Heq. specialize (Hf o Ho). specialize (Hbmax o Ho ltac:(lia)); lia.
  - exists f; split; [reflexivity|]; split; [exact Hfin|]; split.
    + intros o Ho. specialize (Hb o Ho). specialize (Hfmin o Ho ltac:(lia)); lia.
    + intros o Ho Heq. specialize (Hb o Ho). specialize (Hfmin o Ho ltac:(lia)); lia.
  - exfalso. destruct rs as [|o rs]; [congruence|].
    specialize (Hb o (or_introl eq_refl)); specialize (Hf o (or_introl eq_refl)); lia.
Qed.

End Asof.

(** C4: [merge_data] keeps every base row (same length, same
    (timestamp, price) rows up to the sort) and, when the Fear & Greed frame
    is nonempty, attaches to each the fear value of a row of that frame at
    minimal distance, the earliest such timestamp on a tie. *)
Theorem merge_data_nearest (base : list Merge.PriceRow) (other : list Merge.FngRow) :
  length (Merge.merge_data base other) = length base /\
  Permutation (map (fun r => (timestamp r, price r)) (Merge.merge_data base other))
              (map (fun p => (Merge.p_ts p, Merge.p_price p)) base) /\
  (other <> [] -> forall r, In r (Merge.merge_data base other) ->
     exists o, In o other /\ fear r = Some (Merge.f_fear o) /\
       (forall o', In o' other ->
          Z.abs (timestamp r - Merge.f_ts o) <= Z.abs (timestamp r - Merge.f_ts o')) /\
       (forall o', In o' other ->
          Z.abs (timestamp r - Merge.f_ts o') = Z.abs (timestamp r - Merge.f_ts o) ->
          Merge.f_ts o <= Merge.f_ts o')).
Proof.
  unfold Merge.merge_data, Merge.merge_asof_nearest.
  split; [rewrite length_map; apply Permutation_length, Permutation_sort_by|].
  split.
  { rewrite map_map; simpl. apply Permutation_map, Permutation_sort_by. }
  intros Hne r Hr. apply in_map_iff in Hr as [p [<- Hp]]. simpl.
  assert (Hperm := Permutation_sort_by Merge.f_ts other).
  assert (Hne' : sort_by Merge.f_ts other <> []).
  { intros E; rewrite E in Hperm. apply Permutation_nil in Hperm; congruence. }
  destruct (asof_nearest_spec (Merge.p_ts p) (sort_by Merge.f_ts other)
              (sorted_sort_by _ other) Hne') as (n & -> & Hin & Hmin & Htie).
  exists n. split; [eapply Permutation_in; eauto|]. split; [reflexivity|].
  split.
  - intros o' Ho'. apply Hmin. eapply Permutation_in; [symmetry; exact Hperm | exact Ho'].
  - intros o' Ho'. apply Htie. eapply Permutation_in; [symmetry; exact Hperm | exact Ho'].
Qed.

(** C5: an empty Fear & Greed series never reaches the merge with a
    result: [load_fng] raises [KeyError] on empty data, so loading and
    merging fails for every base series, and it never yields an empty
    frame; whenever the merge runs, every row gets a fear value, none is
    left NaN. *)
Theorem merge_data_empty_other_raises (price_df : list Merge.PriceRow)
  (data : option (list Merge.FngRecord)) :
  Merge.load_fng data <> Some [] /\
  Merge.load_and_merge (Some []) price_df = None /\
  Merge.load_and_merge None price_df = None /\
  (forall rows, Merge.load_and_merge data price_df = Some rows ->
     forall r, In r rows -> fear r <> None).
Proof.
  split; [|split; [reflexivity | split; [reflexivity|]]].
  - destruct data as [[|x l]|]; simpl; discriminate.
  - unfold Merge.load_and_merge.
    destruct (Merge.load_fng data) as [fng|] eqn:El; [|discriminate].
    intros rows H; injection H as <-. intros r Hr.
    assert (Hne : fng <> []) by (intros ->; destruct data as [[|x l]|]; discriminate).
    unfold Merge.merge_data, Merge.merge_asof_nearest in Hr.
    apply in_map_iff in Hr as [p [<- _]]; simpl.
    assert (Hne' : sort_by Merge.f_ts fng <> []).
    { intros E. pose proof (Permutation_sort_by Merge.f_ts fng) as P. rewrite E in P.
      apply Permutation_nil in P. contradiction. }
    destruct (asof_nearest_spec (Merge.p_ts p) (sort_by Merge.f_ts fng)
                (sorted_sort_by _ fng) Hne') as (n & -> & _).
    discriminate.
Qed.

(** ** Daily grouping *)

Lemma In_unique l x : In x (Daily.unique l) <-> In x l.
Proof.
  induction l as [|y l IH]; simpl; [tauto|].
  rewrite filter_In, IH.
  destruct (Z.eq_dec y x) as [->|Hne]; [tauto|].
  assert (Hxy : negb (x =? y) = true) by (apply negb_true_iff, Z.eqb_neq; congruence).
  split; [intros [H|[H _]]; tauto | intros [H|H]; [tauto | right; auto]].
Qed.

Lemma NoDup_unique l : NoDup (Daily.unique l).
Proof.
  induction l as [|y l IH]; simpl; constructor.
  - rewrite filter_In, Z.eqb_refl; simpl; intros [_ H]; discriminate.
  - apply NoDup_filter, IH.
Qed.

Lemma lookup_day_keyed (F : Z -> Q) ks d v :
  Daily.lookup_day d (map (fun k => (k, F k)) ks) = Some v -> v = F d /\ In d ks.
Proof.
  induction ks as [|k ks IH]; simpl; [discriminate|].
  destruct (k =? d) eqn:E.
  - apply Z.eqb_eq in E; subst k; intros H; injection H as <-; auto.
  - intros H; apply IH in H as [? ?]; auto.
Qed.

Lemma lookup_groupby_mean os d v :
  Daily.lookup_day d (Daily.groupby_mean os) = Some v ->
  v = Daily.mean (Daily.day_values d os) /\ Daily.day_values d os <> [].
Proof.
  unfold Daily.groupby_mean; intros H.
  apply lookup_day_keyed in H as [-> Hd]. split; [reflexivity|].
  apply (Permutation_in _ (Permutation_sort_by (fun d => d) _)) in Hd.
  rewrite In_unique in Hd.
  apply in_map_iff in Hd as [o [Ho Hin]].
  unfold Daily.day_values.
  intros E. assert (Hv : In (snd o) (map snd (filter (fun o => Daily.obs_day o =? d) os))).
  { apply in_map, filter_In; split; [exact Hin | apply Z.eqb_eq, Ho]. }
  rewrite E in Hv; exact Hv.
Qed.

Lemma merge_on_date_some {A B} (date : A -> Z) (mk : A -> Q -> B) rows named g res :
  Daily.merge_on_date date mk (rows, named) g = Some res ->
  named = false /\ fst res = flat_map (Daily.merge_row date mk g) rows /\
  (snd res = true <-> rows = []).
Proof.
  unfold Daily.merge_on_date; destruct named; [discriminate|].
  intros H; injection H as <-; simpl.
  split; [reflexivity|]. split; [reflexivity|].
  destruct rows; split; intros; congruence.
Qed.

Lemma merge_row_shape {A B} (date : A -> Z) (mk : A -> Q -> B) g a :
  Daily.merge_row date mk g a = [] \/
  exists v, Daily.lookup_day (date a) g = Some v /\ Daily.merge_row date mk g a = [mk a v].
Proof.
  unfold Daily.merge_row; destruct (Daily.lookup_day (date a) g); eauto.
Qed.

Lemma In_merge_row {A B} (date : A -> Z) (mk : A -> Q -> B) g rows b :
  In b (flat_map (Daily.merge_row date mk g) rows) ->
  exists a v, In a rows /\ Daily.lookup_day (date a) g = Some v /\ b = mk a v.
Proof.
  intros H; apply in_flat_map in H as [a [Ha Hb]].
  destruct (merge_row_shape date mk g a) as [E | [v [Ev E]]]; rewrite E in Hb;
    [contradiction|].
  destruct Hb as [<-|[]]; eauto.
Qed.

Lemma dates_merge_row {A B} (da : A -> Z) (db : B -> Z) (mk : A -> Q -> B) g rows :
  (forall a v, db (mk a v) = da a) ->
  NoDup (map da rows) ->
  NoDup (map db (flat_map (Daily.merge_row da mk g) rows)) /\
  (forall x, In x (map db (flat_map (Daily.merge_row da mk g) rows)) -> In x (map da rows)).
Proof.
  intros Hmk; induction rows as [|a rows IH]; intros Hnd; simpl;
    [split; [constructor | tauto]|].
  apply NoDup_cons_iff in Hnd as [Ha Hnd]. destruct (IH Hnd) as [IH1 IH2].
  rewrite map_app.
  destruct (merge_row_shape da mk g a) as [E | [v [_ E]]]; rewrite E; simpl.
  - split; [exact IH1 | intros x Hx; right; apply IH2, Hx].
  - rewrite Hmk. split.
    + constructor; [intros H; apply Ha, IH2, H | exact IH1].
    + intros x [<-|Hx]; [left; reflexivity | right; apply IH2, Hx].
Qed.

(** The rows of a returned daily frame: distinct dates, each row carrying
    the three grouped means of its day. *)
Lemma market_chart_frame_rows prices mcaps vols df :
  Daily.market_chart_frame prices mcaps vols = Some df ->
  exists rows, df = sort_by Daily.d_date rows /\ NoDup (map Daily.d_date rows) /\
  (forall row, In row rows ->
     Daily.lookup_day (Daily.d_date row) (Daily.groupby_mean prices) = Some (Daily.d_price row) /\
     Daily.lookup_day (Daily.d_date row) (Daily.groupby_mean mcaps)
       = Some (Daily.d_market_cap row) /\
     Daily.lookup_day (Daily.d_date row) (Daily.groupby_mean vols) = Some (Daily.d_volume row)).
Proof.
  unfold Daily.market_chart_frame.
  destruct (Daily.merge_on_date _ _ _ (Daily.groupby_mean prices)) as [[r1 n1]|] eqn:E1;
    [|discriminate].
  destruct (Daily.merge_on_date _ _ _ (Daily.groupby_mean mcaps)) as [[r2 n2]|] eqn:E2;
    [|discriminate].
  destruct (Daily.merge_on_date _ _ _ (Daily.groupby_mean vols)) as [[r3 n3]|] eqn:E3;
    [|discriminate].
  destruct n3; [discriminate|]. intros H; injection H as <-.
  apply merge_on_date_some in E1 as (_ & F1 & _), E2 as (_ & F2 & _), E3 as (_ & F3 & _).
  simpl in F1, F2, F3. subst r1 r2 r3.
  eexists; split; [reflexivity|]. split.
  - apply dates_merge_row; [intros [[d p] m] v; reflexivity|].
    apply dates_merge_row; [intros [d p] v; reflexivity|].
    apply dates_merge_row; [intros d p; reflexivity|].
    rewrite map_id. apply NoDup_unique.
  - intros row Hrow.
    apply In_merge_row in Hrow as ([[d p] m] & v & H2 & L3 & ->).
    apply In_merge_row in H2 as ([d' p'] & m' & H1 & L2 & E2).
    injection E2 as <- <- <-.
    apply In_merge_row in H1 as (d'' & p'' & _ & L1 & E1).
    injection E1 as <- <-.
    simpl in *. auto.
Qed.

(** C7 (as the code does it): a frame returned by
    [fetch_coingecko_market_chart] has at most one row per day, each row's
    price (and market cap and volume) being the mean of the observations
    falling on that day, of which there is at least one; no prices make the
    second merge raise [ValueError], so no frame is returned; and the
    example of the spec. *)
Theorem market_chart_frame_daily_means (prices mcaps vols : list Daily.Obs) :
  (forall df, Daily.market_chart_frame prices mcaps vols = Some df ->
     NoDup (map Daily.d_date df) /\
     (forall row, In row df ->
        Daily.day_values (Daily.d_date row) prices <> [] /\
        Daily.d_price row = Daily.mean (Daily.day_values (Daily.d_date row) prices) /\
        Daily.day_values (Daily.d_date row) mcaps <> [] /\
        Daily.d_market_cap row = Daily.mean (Daily.day_values (Daily.d_date row) mcaps) /\
        Daily.day_values (Daily.d_date row) vols <> [] /\
        Daily.d_volume row = Daily.mean (Daily.day_values (Daily.d_date row) vols))) /\
  Daily.market_chart_frame [] mcaps vols = None /\
  (let ex : list Daily.Obs := [(32400000, 10%Q); (54000000, 20%Q); (118800000, 30%Q)] in
   option_map (map (fun r => (Daily.d_date r, Qred (Daily.d_price r))))
     (Daily.market_chart_frame ex ex ex)
   = Some [(0, 15%Q); (86400000, 30%Q)]).
Proof.
  split; [|split; [reflexivity | vm_compute; reflexivity]].
  intros df Hdf. apply market_chart_frame_rows in Hdf as (rows & -> & Hnd & Hrows).
  split.
  - eapply Permutation_NoDup; [apply Permutation_map; symmetry; apply Permutation_sort_by|].
    exact Hnd.
  - intros row Hrow. apply (Permutation_in _ (Permutation_sort_by _ _)) in Hrow.
    destruct (Hrows row Hrow) as (E1 & E2 & E3).
    apply lookup_groupby_mean in E1 as [? ?], E2 as [? ?], E3 as [? ?].
    repeat split; assumption.
Qed.

(** C7 as stated fails: an empty input yields no empty frame, the fetch
    raises [ValueError] at the second merge. *)
Lemma market_chart_frame_empty_counterexample :
  Daily.market_chart_frame [] [] [] = None /\ Daily.market_chart_frame [] [] [] <> Some [].
Proof. split; [reflexivity | discriminate]. Qed.

(** ** Percent change *)

Lemma fdiv_nonzero a b : ~ (b == 0)%Q -> Insights.fdiv a b = Insights.Fin (a / b).
Proof.
  intros Hb; unfold Insights.fdiv.
  destruct (Qeq_bool b 0) eqn:E; [apply Qeq_bool_iff in E; contradiction | reflexivity].
Qed.

Lemma fdiv_zero a b : (b == 0)%Q -> Insights.fdiv a b = Insights.NonFinite.
Proof.
  intros Hb; unfold Insights.fdiv.
  destruct (Qeq_bool b 0) eqn:E; [reflexivity|].
  apply Qeq_bool_neq in E; contradiction.
Qed.

(** C8 (as the code does it): the change is
    [(last - first) / first * 100] for every nonempty frame with a nonzero
    first price, e.g. 10 for prices 100 then 110; nothing signals
    insufficient data: one point gives 0, a zero first price gives a
    non-finite float, and only an empty frame fails ([iloc[0]]). *)
Theorem percent_change_no_guard :
  (forall df r, hd_error df = Some r -> ~ (Daily.d_price r == 0)%Q ->
     Insights.percent_change df =
     Insights.Value (Insights.Fin
       ((Daily.d_price (last df r) - Daily.d_price r) / Daily.d_price r * 100))) /\
  (forall r, ~ (Daily.d_price r == 0)%Q ->
     exists x, Insights.percent_change [r] = Insights.Value (Insights.Fin x) /\ (x == 0)%Q) /\
  (forall df r, hd_error df = Some r -> (Daily.d_price r == 0)%Q ->
     Insights.percent_change df = Insights.Value Insights.NonFinite) /\
  Insights.percent_change [] = Insights.IndexError /\
  (exists x, Insights.percent_change [Daily.mkDayRow 0 100 0 0; Daily.mkDayRow Daily.day_ms 110 0 0]
             = Insights.Value (Insights.Fin x) /\ (x == 10)%Q).
Proof.
  split; [|split; [|split; [|split]]].
  - intros [|r0 df] r H Hr; [discriminate|]. injection H as <-.
    unfold Insights.percent_change. rewrite fdiv_nonzero by exact Hr. reflexivity.
  - intros r Hr. eexists; split.
    + unfold Insights.percent_change. rewrite fdiv_nonzero by exact Hr. reflexivity.
    + simpl. field. exact Hr.
  - intros [|r0 df] r H Hr; [discriminate|]. injection H as <-.
    unfold Insights.percent_change. rewrite fdiv_zero by exact Hr. reflexivity.
  - reflexivity.
  - eexists; split; [reflexivity | vm_compute; reflexivity].
Qed.

(** C8 as stated fails: a single-point series yields a value (0), and a
    zero first price yields a (non-finite) value, not an error. *)
Lemma percent_change_no_guard_counterexample :
  (exists x, Insights.percent_change [Daily.mkDayRow 0 100 0 0] = Insights.Value (Insights.Fin x)
             /\ (x == 0)%Q) /\
  Insights.percent_change [Daily.mkDayRow 0 0 0 0; Daily.mkDayRow Daily.day_ms 5 0 0]
    = Insights.Value Insights.NonFinite.
Proof. split; [eexists; split; [reflexivity | vm_compute; reflexivity] | reflexivity]. Qed.

(** ** The synthetic fallback series *)

Lemma map_fst_combine {A B} (l : list A) (l' : list B) :
  length l = length l' -> map fst (combine l l') = l.
Proof.
  revert l'; induction l as [|x l IH]; intros [|y l'] H; simpl in *; try discriminate; auto.
  rewrite IH by lia; reflexivity.
Qed.

Lemma fallback_dates_sorted today n :
  StronglySorted Z.lt (map (fun i => today - Z.of_nat i * Daily.day_ms) (rev (seq 0 n))).
Proof.
  induction n as [|n IH]; [constructor|].
  rewrite seq_S, rev_app_distr; simpl.
  constructor; [exact IH|].
  apply Forall_forall; intros x Hx.
  apply in_map_iff in Hx as [i [<- Hi]].
  apply in_rev, in_seq in Hi. unfold Daily.day_ms; lia.
Qed.

Lemma fallback_price_lower base i :
  100 <= base -> (97 <= Insights.fallback_price base i)%Q.
Proof.
  intros Hb. unfold Insights.fallback_price.
  assert (Hk := Z.mod_pos_bound (Z.of_nat i) 7 ltac:(lia)).
  set (k := Z.of_nat i mod 7) in *; clearbody k.
  unfold Qle, Qmult, Qplus, inject_Z; cbn [Qnum Qden Pos.mul Pos.add Pos.succ]. nia.
Qed.

Lemma fallback_rows today coin_hash days :
  Insights.fallback today coin_hash days =
  map (fun '(d, i) =>
         Daily.mkDayRow d (Insights.fallback_price (100 + Z.abs coin_hash mod 100) i)
           (Insights.fallback_price (100 + Z.abs coin_hash mod 100) i * 10000000)%Q
           (1000000 + inject_Z (Z.of_nat i) * 1000)%Q)
      (combine (map (fun i => today - Z.of_nat i * Daily.day_ms) (rev (seq 0 days)))
               (seq 0 days)).
Proof.
  unfold Insights.fallback. rewrite length_map, length_rev, length_seq. reflexivity.
Qed.

(** C10: for [days >= 1] the fallback series has [days] rows with strictly
    increasing dates and prices at least 97 (so positive: base >= 100,
    factor >= 0.97); the percent change over it is a finite number; and
    [safe_fetch_coingecko] returns it when the fetch fails or is empty. *)
Theorem fallback_series_well_formed (today coin_hash : Z) (days : nat)
  (Hd : (1 <= days)%nat) :
  length (Insights.fallback today coin_hash days) = days /\
  StronglySorted Z.lt (map Daily.d_date (Insights.fallback today coin_hash days)) /\
  Forall (fun r => (97 <= Daily.d_price r)%Q) (Insights.fallback today coin_hash days) /\
  Forall (fun r => (0 < Daily.d_price r)%Q) (Insights.fallback today coin_hash days) /\
  (exists x, Insights.percent_change (Insights.fallback today coin_hash days)
             = Insights.Value (Insights.Fin x)) /\
  (forall fetched, fetched = None \/ fetched = Some [] ->
     Insights.safe_fetch fetched today coin_hash days = Insights.fallback today coin_hash days).
Proof.
  set (dates := map (fun i => today - Z.of_nat i * Daily.day_ms) (rev (seq 0 days))).
  assert (Hlen : length dates = days)
    by (unfold dates; rewrite length_map, length_rev, length_seq; reflexivity).
  assert (Hbase : 100 <= 100 + Z.abs coin_hash mod 100)
    by (pose proof (Z.mod_pos_bound (Z.abs coin_hash) 100 ltac:(lia)); lia).
  assert (H97 : Forall (fun r => (97 <= Daily.d_price r)%Q) (Insights.fallback today coin_hash days)).
  { rewrite fallback_rows. apply Forall_forall; intros r Hr.
    apply in_map_iff in Hr as [[d i] [<- _]]; simpl.
    apply fallback_price_lower, Hbase. }
  assert (Hpos : Forall (fun r => (0 < Daily.d_price r)%Q) (Insights.fallback today coin_hash days)).
  { eapply Forall_impl; [|exact H97]; intros r Hr.
    eapply Qlt_le_trans; [|exact Hr]. reflexivity. }
  split; [|split; [|split; [exact H97 | split; [exact Hpos | split]]]].
  - rewrite fallback_rows, length_map, length_combine; fold dates.
    rewrite Hlen, length_seq; apply Nat.min_id.
  - rewrite fallback_rows, map_map; fold dates.
    rewrite (map_ext _ fst) by (intros [d i]; reflexivity).
    rewrite map_fst_combine by (rewrite Hlen, length_seq; reflexivity).
    apply fallback_dates_sorted.
  - destruct (Insights.fallback today coin_hash days) as [|r df] eqn:E.
    + exfalso. rewrite fallback_rows in E.
      apply (f_equal (@length _)) in E. rewrite length_map, length_combine in E.
      fold dates in E. rewrite Hlen, length_seq, Nat.min_id in E. simpl in E; lia.
    + apply Forall_inv in Hpos as Hr.
      unfold Insights.percent_change.
      rewrite fdiv_nonzero by (intros Hz; rewrite Hz in Hr; discriminate Hr).
      eexists; reflexivity.
  - intros fetched [-> | ->]; reflexivity.
Qed.

Lemma fallback_series_well_formed_witness :
  (1 <= 30)%nat /\ length (Insights.fallback 0 42 30) = 30%nat.
Proof.
  split; [lia|]. apply (fallback_series_well_formed 0 42 30). lia.
Defined.

(** ** The store of frames *)

Section StoreFacts.
Import Heap.

Lemma nth_error_snoc_last {A} (s : list A) x : nth_error (s ++ [x]) (length s) = Some x.
Proof. rewrite nth_error_app2, Nat.sub_diag by lia; reflexivity. Qed.

Lemma replace_nth_snoc_last {A} (s : list A) x y :
  replace_nth (s ++ [y]) (length s) x = s ++ [x].
Proof. induction s as [|z s IH]; simpl; [reflexivity | rewrite IH; reflexivity]. Qed.

Lemma length_snoc {A} (s : list A) x : length (s ++ [x]) = S (length s).
Proof. rewrite length_app; simpl; lia. Qed.

Lemma ltb_length_snoc {A} (s : list A) x : (length s <? length (s ++ [x]))%nat = true.
Proof. rewrite length_snoc; apply Nat.ltb_lt; lia. Qed.

End StoreFacts.

Ltac run_store :=
  unfold Heap.alloc, Heap.read, Heap.write;
  repeat (rewrite ?nth_error_snoc_last, ?ltb_length_snoc, ?replace_nth_snoc_last;
          cbv iota beta).

Ltac old_slot :=
  repeat (rewrite nth_error_app1 by (rewrite ?length_app; simpl; lia));
  rewrite ?nth_error_snoc_last.

Lemma cumulative_return_st_run (s : Heap.store) (l : nat) (f : list Row) :
  nth_error s l = Some f ->
  exists c s2, Heap.cumulative_return_st l s = Some (c, s2) /\
    nth_error s2 l = Some f /\ nth_error s2 c = Some (Returns.cumulative_return f).
Proof.
  intros Hl.
  assert (Hlt : (l < length s)%nat) by (apply nth_error_Some; congruence).
  unfold Heap.cumulative_return_st, Heap.copy, Heap.mbind, Heap.mret.
  unfold Heap.read at 1. rewrite Hl. run_store.
  eexists _, _; split; [reflexivity|]. split.
  - old_slot. exact Hl.
  - apply nth_error_snoc_last.
Qed.

(** C9: [backtest] and [cumulative_return] work on [df.copy()]: run on the
    frame at location [l], they leave that frame as it was, return frames
    holding the pure results, and a second view run afterwards on [l]
    (here [cumulative_return]) sees the original frame. *)
Theorem backtest_and_cumulative_keep_input (s : Heap.store) (l h : nat) (f : list Row)
  (Hl : nth_error s l = Some f) :
  (exists fb gs s1,
     Heap.backtest_st l h s = Some ((fb, gs), s1) /\
     nth_error s1 l = Some f /\
     nth_error s1 fb = Some (fst (Backtest.backtest f h)) /\
     nth_error s1 gs = Some (snd (Backtest.backtest f h)) /\
     (exists c s2, Heap.cumulative_return_st l s1 = Some (c, s2) /\
        nth_error s2 l = Some f /\ nth_error s2 c = Some (Returns.cumulative_return f))) /\
  (exists c s2, Heap.cumulative_return_st l s = Some (c, s2) /\
     nth_error s2 l = Some f /\ nth_error s2 c = Some (Returns.cumulative_return f)).
Proof.
  assert (Hlt : (l < length s)%nat) by (apply nth_error_Some; congruence).
  split; [|apply cumulative_return_st_run, Hl].
  unfold Heap.backtest_st, Heap.copy, Heap.mbind, Heap.mret.
  unfold Heap.read at 1. rewrite Hl. run_store.
  eexists _, _, _; split; [reflexivity|].
  split; [|split; [|split]].
  - old_slot. exact Hl.
  - old_slot. reflexivity.
  - apply nth_error_snoc_last.
  - apply cumulative_return_st_run. old_slot. exact Hl.
Qed.

Lemma backtest_and_cumulative_keep_input_witness :
  nth_error [[mkRow 0 1 (Some 10) None None None]] 0 = Some [mkRow 0 1 (Some 10) None None None] /\
  exists c s2, Heap.cumulative_return_st 0 [[mkRow 0 1 (Some 10) None None None]] = Some (c, s2) /\
    nth_error s2 0 = Some [mkRow 0 1 (Some 10) None None None] /\
    nth_error s2 c = Some (Returns.cumulative_return [mkRow 0 1 (Some 10) None None None]).
Proof.
  split; [reflexivity|].
  apply (backtest_and_cumulative_keep_input [[mkRow 0 1 (Some 10) None None None]] 0 7
           [mkRow 0 1 (Some 10) None None None]).
  reflexivity.
Defined.

(** * Further properties of [src/app.py] *)

Lemma sorted_map_key {A} (key : A -> Z) l :
  StronglySorted (fun a b => key a <= key b) l -> StronglySorted Z.le (map key l).
Proof.
  induction l as [|x l IH]; intros Hs; simpl; [constructor|].
  apply StronglySorted_inv in Hs as [Hs Hx].
  constructor; [apply IH, Hs|].
  apply Forall_map; exact Hx.
Qed.

Lemma sorted_le_nodup_lt xs :
  StronglySorted Z.le xs -> NoDup xs -> StronglySorted Z.lt xs.
Proof.
  induction xs as [|x xs IH]; intros Hs Hnd; [constructor|].
  apply StronglySorted_inv in Hs as [Hs Hx].
  apply NoDup_cons_iff in Hnd as [Hn Hnd].
  constructor; [apply IH; assumption|].
  rewrite Forall_forall in *; intros y Hy.
  specialize (Hx y Hy). assert (x <> y) by (intros ->; contradiction). lia.
Qed.

(** X1: a frame returned by [fetch_coingecko_market_chart] has strictly
    increasing dates. *)
Theorem market_chart_frame_dates_increasing (prices mcaps vols : list Daily.Obs)
  (df : list Daily.DayRow) :
  Daily.market_chart_frame prices mcaps vols = Some df ->
  StronglySorted Z.lt (map Daily.d_date df).
Proof.
  intros Hdf. apply market_chart_frame_rows in Hdf as (rows & -> & Hnd & _).
  apply sorted_le_nodup_lt.
  - apply sorted_map_key, sorted_sort_by.
  - eapply Permutation_NoDup; [apply Permutation_map; symmetry; apply Permutation_sort_by|].
    exact Hnd.
Qed.

Lemma market_chart_frame_dates_increasing_witness :
  let ex : list Daily.Obs := [(32400000, 10%Q); (54000000, 20%Q); (118800000, 30%Q)] in
  exists df, Daily.market_chart_frame ex ex ex = Some df /\
             StronglySorted Z.lt (map Daily.d_date df).
Proof.
  intros ex. destruct (Daily.market_chart_frame ex ex ex) as [df|] eqn:E.
  - exists df. split; [reflexivity|].
    exact (market_chart_frame_dates_increasing ex ex ex df E).
  - exfalso. vm_compute in E. discriminate E.
Defined.

Lemma fallback_nonempty today coin_hash days :
  (1 <= days)%nat -> Insights.fallback today coin_hash days <> [].
Proof.
  intros Hd E. apply (f_equal (@length _)) in E.
  rewrite fallback_rows, length_map, length_combine, length_map, length_rev,
    length_seq, Nat.min_id in E.
  simpl in E; lia.
Qed.

Lemma sort_by_nonempty {A} (key : A -> Z) l : l <> [] -> sort_by key l <> [].
Proof.
  intros Hl E. pose proof (Permutation_sort_by key l) as P. rewrite E in P.
  apply Permutation_nil in P; contradiction.
Qed.

(** X2: for [days >= 1] (the slider allows 7 to 90) the frame returned by
    [safe_fetch_coingecko] is never empty, whatever the fetch did, so the
    insights loop never hits the [IndexError] of [iloc[0]] and the latest
    table always finds a last row. *)
Theorem safe_fetch_never_empty (fetched : option (list Daily.DayRow))
  (today coin_hash : Z) (days : nat) (Hd : (1 <= days)%nat) :
  Insights.safe_fetch fetched today coin_hash days <> [] /\
  Insights.percent_change (Insights.safe_fetch fetched today coin_hash days)
    <> Insights.IndexError /\
  App.latest_row (Insights.safe_fetch fetched today coin_hash days) <> None.
Proof.
  assert (Hne : Insights.safe_fetch fetched today coin_hash days <> []).
  { destruct fetched as [[|r df]|]; cbn -[Insights.fallback];
      [apply fallback_nonempty, Hd | discriminate | apply fallback_nonempty, Hd]. }
  split; [exact Hne|]. split.
  - destruct (Insights.safe_fetch fetched today coin_hash days); [contradiction|].
    unfold Insights.percent_change; discriminate.
  - unfold App.latest_row.
    destruct (sort_by Daily.d_date _) eqn:E; [|discriminate].
    exfalso; exact (sort_by_nonempty _ _ Hne E).
Qed.

Lemma safe_fetch_never_empty_witness :
  (1 <= 30)%nat /\ Insights.safe_fetch None 0 7 30 <> [].
Proof.
  split; [lia|]. apply (safe_fetch_never_empty None 0 7 30). lia.
Defined.

Lemma last_cons_default {A} (x : A) l d d' : last (x :: l) d = last (x :: l) d'.
Proof.
  revert x; induction l as [|z l IH]; intros x; [reflexivity|].
  change (last (z :: l) d = last (z :: l) d'); apply IH.
Qed.

Lemma last_sorted_max {A} (key : A -> Z) x l :
  StronglySorted (fun a b => key a <= key b) (x :: l) ->
  forall y, In y (x :: l) -> key y <= key (last (x :: l) x).
Proof.
  revert x; induction l as [|z l IH]; intros x Hs y Hy.
  - destruct Hy as [<-|[]]; simpl; lia.
  - apply StronglySorted_inv in Hs as [Hs Hx].
    change (last (x :: z :: l) x) with (last (z :: l) x).
    rewrite (last_cons_default z l x z).
    destruct Hy as [<-|Hy].
    + eapply Z.le_trans; [apply (Forall_inv Hx) | apply IH; [exact Hs | left; reflexivity]].
    + apply IH; assumption.
Qed.

Lemma In_last {A} (x : A) l : In (last (x :: l) x) (x :: l).
Proof.
  revert x; induction l as [|z l IH]; intros x; [left; reflexivity|].
  change (last (x :: z :: l) x) with (last (z :: l) x).
  rewrite (last_cons_default z l x z). right; apply IH.
Qed.

(** X3: the row the latest table shows for a chain is a row of its frame
    with the greatest date; only an empty frame has none. *)
Theorem latest_row_max_date (df : list Daily.DayRow) :
  (App.latest_row df = None <-> df = []) /\
  (forall r, App.latest_row df = Some r ->
     In r df /\ forall r', In r' df -> Daily.d_date r' <= Daily.d_date r).
Proof.
  assert (P := Permutation_sort_by Daily.d_date df).
  assert (S := sorted_sort_by Daily.d_date df).
  unfold App.latest_row.
  destruct (sort_by Daily.d_date df) as [|x l] eqn:E.
  - apply Permutation_nil in P; subst df. split; [tauto | discriminate].
  - split.
    + split; [discriminate | intros ->; apply Permutation_sym, Permutation_nil in P; discriminate].
    + intros r Hr; injection Hr as <-. split.
      * eapply Permutation_in; [exact P | apply In_last].
      * intros r' Hr'. apply (last_sorted_max Daily.d_date x l S).
        eapply Permutation_in; [symmetry; exact P | exact Hr'].
Qed.

Lemma onchain_rows today days :
  App.fetch_eth_onchain_summary today days =
  map (fun '(d, i) =>
         App.mkOnchainRow d (2000000 + (Z.of_nat i * 1000) mod 200000) (20 + Z.of_nat i mod 5))
      (combine (map (fun i => today - Z.of_nat i * Daily.day_ms) (rev (seq 0 days)))
               (seq 0 days)).
Proof.
  unfold App.fetch_eth_onchain_summary. rewrite length_map, length_rev, length_seq.
  reflexivity.
Qed.

Lemma onchain_bounds (i : nat) :
  2000000 <= 2000000 + (Z.of_nat i * 1000) mod 200000 < 2200000 /\
  20 <= 20 + Z.of_nat i mod 5 <= 24.
Proof.
  pose proof (Z.mod_pos_bound (Z.of_nat i * 1000) 200000 ltac:(lia)).
  pose proof (Z.mod_pos_bound (Z.of_nat i) 5 ltac:(lia)).
  generalize dependent ((Z.of_nat i * 1000) mod 200000).
  generalize dependent (Z.of_nat i mod 5). intros; lia.
Qed.
(** X4: [fetch_eth_onchain_summary] gives [days] rows with strictly
    increasing dates, a transaction count in [2000000, 2200000) and an
    average gas in [20, 24]. *)
Theorem onchain_summary_shape (today : Z) (days : nat) :
  length (App.fetch_eth_onchain_summary today days) = days /\
  StronglySorted Z.lt (map App.o_date (App.fetch_eth_onchain_summary today days)) /\
  Forall (fun r => 2000000 <= App.tx_count r < 2200000 /\ 20 <= App.avg_gas r <= 24)
         (App.fetch_eth_onchain_summary today days).
Proof.
  rewrite onchain_rows.
  set (dates := map (fun i => today - Z.of_nat i * Daily.day_ms) (rev (seq 0 days))).
  assert (Hlen : length dates = days)
    by (unfold dates; rewrite length_map, length_rev, length_seq; reflexivity).
  split; [|split].
  - rewrite length_map, length_combine, Hlen, length_seq; apply Nat.min_id.
  - rewrite map_map.
    rewrite (map_ext _ fst) by (intros [d i]; reflexivity).
    rewrite map_fst_combine by (rewrite Hlen, length_seq; reflexivity).
    apply fallback_dates_sorted.
  - apply Forall_forall; intros r Hr.
    apply in_map_iff in Hr as [[d i] [<- _]].
    exact (onchain_bounds i).
Qed.

Lemma format_all_ok cs :
  News.format_all (map Some cs) = Some (map News.format_coin cs).
Proof. induction cs as [|c cs IH]; simpl; [reflexivity | rewrite IH; reflexivity]. Qed.

Lemma format_all_bad cs : In None cs -> News.format_all cs = None.
Proof.
  induction cs as [|[c|] cs IH]; simpl; intros H; [contradiction | | reflexivity].
  destruct H as [H|H]; [discriminate|]. rewrite IH by exact H; reflexivity.
Qed.

(** X5: when the trending endpoint answers 200 with well-formed entries,
    [fetch_news_keywords] returns the first [limit] of them formatted as
    ["name (symbol)"], so never more than [limit] lines; a 200 answer
    without a [coins] key gives the empty list, not the fallback. *)
Theorem news_keywords_success (cs : list (String.string * String.string)) (limit : nat) :
  News.fetch_news_keywords (News.Answer 200 (Some (map Some cs))) limit =
    firstn limit (map News.format_coin cs) /\
  (length (News.fetch_news_keywords (News.Answer 200 (Some (map Some cs))) limit) <= limit)%nat /\
  News.fetch_news_keywords (News.Answer 200 None) limit = [].
Proof.
  assert (E : News.fetch_news_keywords (News.Answer 200 (Some (map Some cs))) limit =
              firstn limit (map News.format_coin cs))
    by (unfold News.fetch_news_keywords; simpl; rewrite format_all_ok; reflexivity).
  split; [exact E|]. split.
  - rewrite E, length_firstn; lia.
  - destruct limit; reflexivity.
Qed.

(** X6: [fetch_news_keywords] returns the four fallback headlines when the
    request raised, when the status is not 200, and when any entry of
    [coins] lacks [item], [name] or [symbol], even one past [limit]. *)
Theorem news_keywords_fallback (limit : nat) :
  News.fetch_news_keywords News.Raised limit = News.fallback_news /\
  (forall status coins, status <> 200 ->
     News.fetch_news_keywords (News.Answer status coins) limit = News.fallback_news) /\
  (forall cs, In None cs ->
     News.fetch_news_keywords (News.Answer 200 (Some cs)) limit = News.fallback_news) /\
  length News.fallback_news = 4%nat.
Proof.
  split; [reflexivity|]. split; [|split; [|reflexivity]].
  - intros status coins Hs. unfold News.fetch_news_keywords.
    apply Z.eqb_neq in Hs; rewrite Hs; reflexivity.
  - intros cs Hcs. unfold News.fetch_news_keywords; simpl.
    rewrite format_all_bad by exact Hcs; reflexivity.
Qed.

(** X7: [merge_data] returns the price rows (timestamp and price) of its
    input, each exactly once, in non-decreasing timestamp order, whatever
    the order of the input frames. *)
Theorem merge_data_rows_sorted (price_df : list Merge.PriceRow) (fng : list Merge.FngRow) :
  Permutation (map (fun r => (timestamp r, price r)) (Merge.merge_data price_df fng))
              (map (fun p => (Merge.p_ts p, Merge.p_price p)) price_df) /\
  StronglySorted Z.le (map timestamp (Merge.merge_data price_df fng)).
Proof.
  unfold Merge.merge_data, Merge.merge_asof_nearest. rewrite !map_map.
  split.
  - apply Permutation_map, Permutation_sort_by.
  - apply sorted_map_key, sorted_sort_by.
Qed.

Lemma filter_two_le {A} (p q c : A -> bool) l :
  (forall x, p x = true -> c x = true) ->
  (forall x, q x = true -> c x = true) ->
  (forall x, p x = true -> q x = false) ->
  (length (filter p l) + length (filter q l) <= length (filter c l))%nat.
Proof.
  intros Hp Hq Hpq; induction l as [|x l IH]; simpl; [lia|].
  destruct (p x) eqn:Ep.
  - rewrite (Hp x Ep), (Hpq x Ep); simpl; lia.
  - destruct (q x) eqn:Eq; [rewrite (Hq x Eq)|]; destruct (c x); simpl; lia.
Qed.

Lemma length_filter_map {A} (f : A -> bool) l :
  length (filter f l) = length (filter (fun b : bool => b) (map f l)).
Proof. induction l as [|x l IH]; simpl; [|destruct (f x); simpl]; auto. Qed.

Lemma length_filter_ltb_seq k b :
  length (filter (fun i => (i <? b)%nat) (seq 0 k)) = Nat.min k b.
Proof.
  induction k as [|k IH]; [reflexivity|].
  rewrite seq_S, filter_app, length_app, IH, Nat.add_0_l.
  cbn [filter length]; destruct (Nat.ltb_spec k b); cbn [length]; lia.
Qed.

Lemma count_defined_returns h df :
  length (filter (fun r => if ret r then true else false)
                 (Backtest.annotate_forward_return h df)) = (length df - h)%nat.
Proof.
  rewrite length_filter_map, defined_returns_shape.
  rewrite (map_ext_in _ (fun i => (i <? length df - h)%nat)).
  - rewrite <- length_filter_map, length_filter_ltb_seq; lia.
  - intros i Hi; apply in_seq in Hi.
    destruct (Nat.ltb_spec (i + h) (length df)), (Nat.ltb_spec i (length df - h));
      reflexivity || lia.
Qed.

Lemma partition_annotate q h df :
  Backtest.partition q (Backtest.annotate_forward_return h df) =
  filter (fun r => Backtest.on_fear q r && (if ret r then true else false))
         (Backtest.annotate_forward_return h df).
Proof.
  apply dropna_after_fear_filter; intros r Hr; apply (annotate_ret_future h df r Hr).
Qed.

(** X8: [backtest] puts in the fear cohort only rows with a fear value at
    most 20 and in the greed cohort only rows with a fear value at least
    80, so no row is in both; the two cohorts together hold at most
    [len(df) - lookahead] rows. *)
Theorem backtest_cohorts_disjoint (df : list Row) (h : nat) :
  Forall (fun r => exists f, fear r = Some f /\ f <= 20) (fst (Backtest.backtest df h)) /\
  Forall (fun r => exists f, fear r = Some f /\ 80 <= f) (snd (Backtest.backtest df h)) /\
  (forall r, In r (fst (Backtest.backtest df h)) -> ~ In r (snd (Backtest.backtest df h))) /\
  (length (fst (Backtest.backtest df h)) + length (snd (Backtest.backtest df h))
     <= length df - h)%nat.
Proof.
  unfold Backtest.backtest; simpl. rewrite !partition_annotate.
  assert (Hf : forall q r,
    In r (filter (fun r => Backtest.on_fear q r && (if ret r then true else false))
                 (Backtest.annotate_forward_return h df)) ->
    exists f, fear r = Some f /\ q f = true).
  { intros q r Hr. apply filter_In in Hr as [_ Hr]. apply andb_prop in Hr as [Hr _].
    unfold Backtest.on_fear in Hr. destruct (fear r) as [f|]; [|discriminate].
    exists f; auto. }
  split; [|split; [|split]].
  - apply Forall_forall; intros r Hr.
    destruct (Hf _ _ Hr) as (f & Ef & Hq). exists f; split; [exact Ef|].
    unfold Backtest.fear_le_20 in Hq; lia.
  - apply Forall_forall; intros r Hr.
    destruct (Hf _ _ Hr) as (f & Ef & Hq). exists f; split; [exact Ef|].
    unfold Backtest.fear_ge_80 in Hq; lia.
  - intros r H1 H2.
    destruct (Hf _ _ H1) as (f & Ef & Hq1), (Hf _ _ H2) as (f' & Ef' & Hq2).
    rewrite Ef in Ef'; injection Ef' as <-.
    unfold Backtest.fear_le_20, Backtest.fear_ge_80 in *; lia.
  - rewrite <- count_defined_returns. apply filter_two_le.
    + intros x Hx; apply andb_prop in Hx; tauto.
    + intros x Hx; apply andb_prop in Hx; tauto.
    + intros x Hx. apply andb_prop in Hx as [Hx Hr]. rewrite Hr, andb_true_r.
      unfold Backtest.on_fear in *. destruct (fear x) as [f|]; [|discriminate].
      unfold Backtest.fear_le_20, Backtest.fear_ge_80 in *.
      apply Z.leb_le in Hx. apply Z.leb_gt; lia.
Qed.

Lemma annotate_growth_pos h df r x :
  Forall (fun r => 0 < price r)%Q df ->
  In r (Backtest.annotate_forward_return h df) -> ret r = Some x -> (0 < 1 + x)%Q.
Proof.
  intros Hpos Hr Ex. apply In_annotate in Hr as (i & r0 & E0 & ->).
  unfold Backtest.return_of in Ex; simpl in Ex.
  destruct (nth_error (map price df) (i + h)%nat) as [f|] eqn:Ef; [|discriminate].
  injection Ex as <-. simpl.
  apply nth_error_In in Ef, E0. apply in_map_iff in Ef as [r1 [<- Hr1]].
  rewrite Forall_forall in Hpos.
  pose proof (Hpos r1 Hr1) as Hf. pose proof (Hpos r0 E0) as Hp.
  assert (Hne : ~ (price r0 == 0)%Q) by (intros Hz; rewrite Hz in Hp; discriminate Hp).
  assert (Eq : (1 + (price r1 - price r0) / price r0 == price r1 * / price r0)%Q)
    by (field; exact Hne).
  rewrite Eq. apply Qmult_lt_0_compat; [exact Hf | apply Qinv_lt_0_compat; exact Hp].
Qed.

Lemma scan_prod_pos acc xs :
  (0 < acc)%Q -> Forall (fun x => 0 < x)%Q xs -> Forall (fun x => 0 < x)%Q (scan_prod acc xs).
Proof.
  revert acc; induction xs as [|x xs IH]; intros acc Ha Hx; simpl; [constructor|].
  apply Forall_cons_iff in Hx as [Hx Hxs].
  assert (0 < acc * x)%Q by (apply Qmult_lt_0_compat; assumption).
  constructor; [assumption | apply IH; assumption].
Qed.

Lemma fold_prod_pos xs :
  Forall (fun x => 0 < x)%Q xs -> (0 < fold_right Qmult 1 xs)%Q.
Proof.
  induction xs as [|x xs IH]; intros H; simpl; [reflexivity|].
  apply Forall_cons_iff in H as [Hx Hxs]. apply Qmult_lt_0_compat; auto.
Qed.

Lemma cohort_growth_pos q h df :
  Forall (fun r => 0 < price r)%Q df ->
  exists rs, map ret (Backtest.partition q (Backtest.annotate_forward_return h df)) = map Some rs /\
             Forall (fun x => 0 < x)%Q (map (Qplus 1) rs).
Proof.
  intros Hpos. destruct (cohort_returns q (Backtest.annotate_forward_return h df)) as [rs Hrs].
  exists rs; split; [exact Hrs|].
  apply Forall_forall; intros y Hy. apply in_map_iff in Hy as [x [<- Hx]].
  assert (Hin : In (Some x) (map ret (Backtest.partition q (Backtest.annotate_forward_return h df))))
    by (rewrite Hrs; apply in_map; exact Hx).
  apply in_map_iff in Hin as [r [Er Hr]].
  unfold Backtest.partition, Backtest.dropna in Hr.
  apply filter_In in Hr as [Hr _]. apply filter_In in Hr as [Hr _].
  exact (annotate_growth_pos h df r x Hpos Hr Er).
Qed.

(** X9: when every price of the merged frame is positive, every value of
    the cumulative column of either backtest cohort is positive, and both
    percentages of [compare_strategies] are above -100. *)
Theorem strategy_returns_above_total_loss (df : list Row) (h : nat) :
  Forall (fun r => 0 < price r)%Q df ->
  Forall (fun c => exists v, c = Some v /\ (0 < v)%Q)
         (map cumulative (Returns.cumulative_return (fst (Backtest.backtest df h)))) /\
  Forall (fun c => exists v, c = Some v /\ (0 < v)%Q)
         (map cumulative (Returns.cumulative_return (snd (Backtest.backtest df h)))) /\
  (-100 < fst (Returns.compare_strategies (fst (Backtest.backtest df h))
                                         (snd (Backtest.backtest df h))))%Q /\
  (-100 < snd (Returns.compare_strategies (fst (Backtest.backtest df h))
                                         (snd (Backtest.backtest df h))))%Q.
Proof.
  intros Hpos. unfold Backtest.backtest; simpl.
  assert (Hcum : forall q,
    Forall (fun c => exists v, c = Some v /\ (0 < v)%Q)
      (map cumulative (Returns.cumulative_return
         (Backtest.partition q (Backtest.annotate_forward_return h df))))).
  { intros q. destruct (cohort_growth_pos q h df Hpos) as (rs & Hrs & Hg).
    unfold Returns.cumulative_return.
    rewrite map_cumulative_assign
      by (unfold Returns.cumulative_values, Returns.cumprod;
          rewrite length_cumprod_from; unfold Returns.growth; apply length_map).
    unfold Returns.cumulative_values, Returns.cumprod.
    rewrite (growth_of_returns _ rs Hrs).
    replace (map (fun x => Some (1 + x)%Q) rs) with (map Some (map (Qplus 1) rs))
      by (rewrite map_map; reflexivity).
    rewrite cumprod_from_defined.
    apply Forall_map.
    apply (Forall_impl (P := fun v => (0 < v)%Q)); [intros v Hv; exists v; auto|].
    apply scan_prod_pos; [reflexivity | exact Hg]. }
  assert (Htot : forall q,
    (-100 < Returns.total_return
              (Backtest.partition q (Backtest.annotate_forward_return h df)) * 100)%Q).
  { intros q. destruct (cohort_growth_pos q h df Hpos) as (rs & Hrs & Hg).
    unfold Returns.total_return.
    destruct (0 <? length _)%nat; [|reflexivity].
    rewrite (growth_of_returns _ rs Hrs), prod_of_returns.
    pose proof (fold_prod_pos _ Hg) as Hp.
    set (p := fold_right Qmult 1%Q (map (Qplus 1) rs)) in *. clearbody p.
    destruct p as [n d]. unfold Qlt, Qmult, Qminus, Qplus, Qopp in *.
    cbn [Qnum Qden] in *. nia. }
  split; [apply Hcum|]. split; [apply Hcum|]. split; apply Htot.
Qed.

Lemma strategy_returns_above_total_loss_witness :
  let df := [mkRow 0 100 (Some 10) None None None; mkRow 1 120 (Some 90) None None None;
             mkRow 2 90 (Some 15) None None None] in
  Forall (fun r => 0 < price r)%Q df /\
  (-100 < fst (Returns.compare_strategies (fst (Backtest.backtest df 1))
                                         (snd (Backtest.backtest df 1))))%Q.
Proof.
  intros df. assert (H : Forall (fun r => 0 < price r)%Q df)
    by (repeat constructor).
  split; [exact H|].
  apply (strategy_returns_above_total_loss df 1 H).
Defined.

Lemma nth_error_combine_eq {A B} (l : list A) (l' : list B) i :
  nth_error (combine l l') i =
  match nth_error l i, nth_error l' i with
  | Some a, Some b => Some (a, b)
  | _, _ => None
  end.
Proof.
  revert l' i; induction l as [|x l IH]; intros [|y l'] [|i]; simpl; auto.
  destruct (nth_error l i); reflexivity.
Qed.

Lemma nth_error_rev_seq n i :
  (i < n)%nat -> nth_error (rev (seq 0 n)) i = Some (n - 1 - i)%nat.
Proof.
  revert i; induction n as [|n IH]; intros i Hi; [lia|].
  rewrite seq_S, rev_app_distr. simpl.
  destruct i as [|i]; simpl; [f_equal; lia|].
  rewrite IH by lia; f_equal; lia.
Qed.

Lemma nth_error_fallback today coin_hash days i :
  (i < days)%nat ->
  nth_error (Insights.fallback today coin_hash days) i =
  Some (Daily.mkDayRow (today - Z.of_nat (days - 1 - i) * Daily.day_ms)
          (Insights.fallback_price (100 + Z.abs coin_hash mod 100) i)
          (Insights.fallback_price (100 + Z.abs coin_hash mod 100) i * 10000000)%Q
          (1000000 + inject_Z (Z.of_nat i) * 1000)%Q).
Proof.
  intros Hi. rewrite fallback_rows, nth_error_map, nth_error_combine_eq, nth_error_map,
    nth_error_rev_seq, nth_error_seq by exact Hi.
  rewrite (proj2 (Nat.ltb_lt _ _) Hi). reflexivity.
Qed.

Lemma fallback_price_period base i :
  Insights.fallback_price base (i + 7) = Insights.fallback_price base i.
Proof.
  unfold Insights.fallback_price. rewrite Nat2Z.inj_add.
  change (Z.of_nat 7) with (1 * 7). rewrite Z_mod_plus_full. reflexivity.
Qed.

Lemma fallback_price_band base i :
  0 <= base ->
  (inject_Z (97 * base) <= Insights.fallback_price base i * 100 <= inject_Z (103 * base))%Q.
Proof.
  intros Hb. unfold Insights.fallback_price.
  assert (Hk := Z.mod_pos_bound (Z.of_nat i) 7 ltac:(lia)).
  set (k := Z.of_nat i mod 7) in *; clearbody k.
  unfold Qle, Qmult, Qplus, inject_Z; cbn [Qnum Qden Pos.mul Pos.add Pos.succ].
  split; nia.
Qed.

(** X10: for [i < days], row [i] of the synthetic series of
    [safe_fetch_coingecko] is dated [days - 1 - i] days before [today]
    (the last row is today), its price lies between 97% and 103% of the
    base [100 + abs(hash(coin_id)) % 100], and the price repeats with a
    period of seven rows. *)
Theorem fallback_series_layout (today coin_hash : Z) (days i : nat) :
  (i < days)%nat ->
  exists r, nth_error (Insights.fallback today coin_hash days) i = Some r /\
    Daily.d_date r = today - Z.of_nat (days - 1 - i) * Daily.day_ms /\
    (inject_Z (97 * (100 + Z.abs coin_hash mod 100)) <= Daily.d_price r * 100
       <= inject_Z (103 * (100 + Z.abs coin_hash mod 100)))%Q /\
    ((i + 7 < days)%nat ->
       exists r', nth_error (Insights.fallback today coin_hash days) (i + 7) = Some r' /\
                  Daily.d_price r' = Daily.d_price r).
Proof.
  intros Hi. rewrite nth_error_fallback by exact Hi.
  eexists; split; [reflexivity|]; cbn [Daily.d_date Daily.d_price]. split; [reflexivity|]. split.
  - apply fallback_price_band.
    pose proof (Z.mod_pos_bound (Z.abs coin_hash) 100 ltac:(lia)); lia.
  - intros Hi7. rewrite nth_error_fallback by exact Hi7.
    eexists; split; [reflexivity|]; cbn [Daily.d_price]. apply fallback_price_period.
Qed.

Lemma fallback_series_layout_witness :
  (2 < 10)%nat /\
  exists r, nth_error (Insights.fallback 1700000000000 42 10) 2 = Some r /\
    Daily.d_date r = 1700000000000 - Z.of_nat (10 - 1 - 2) * Daily.day_ms /\
    (inject_Z (97 * (100 + Z.abs 42 mod 100)) <= Daily.d_price r * 100
       <= inject_Z (103 * (100 + Z.abs 42 mod 100)))%Q /\
    ((2 + 7 < 10)%nat ->
       exists r', nth_error (Insights.fallback 1700000000000 42 10) (2 + 7) = Some r' /\
                  Daily.d_price r' = Daily.d_price r).
Proof.
  split; [lia|]. apply (fallback_series_layout 1700000000000 42 10 2). lia.
Defined.
